(** * QQP text classification: the loader, the vectorizer and the FastText run

    A shallow embedding of [text_classification_qqp.py]:
    [load_qqp_data], [train_fasttext] (with its local functions
    [preprocess_text] and [text_to_vector]) and the part of [main] that
    fills the results table.

    The libraries the script calls (the Spark session, gensim, scikit-learn,
    numpy's float arithmetic, the wall clock) and the two Unicode-aware
    string methods it uses are interfaces here: records whose fields are the
    operations the script uses.  The DataFrame
    operations the script chains ([withColumn], [filter], [select], [count])
    are modelled concretely on a table of nullable cells. *)

From Stdlib Require Import List String Ascii Bool Arith ZArith QArith Lia.
From Stdlib Require Import Floats.SpecFloat.
Import ListNotations.
Open Scope string_scope.
Open Scope list_scope.
Open Scope nat_scope.

(** ** Python outcomes: a call returns a value or raises *)

(** The exception classes that occur in the script and in the libraries it
    calls.  All of them derive from Python's [Exception], so the handler
    [except Exception] of [load_qqp_data] catches every one. *)
Inductive exception :=
| AnalysisException   (* Spark: unresolved or ambiguous column, missing path *)
| Py4JJavaError       (* Spark: failure inside a job *)
| ValueError
| KeyError
| RuntimeError.

Inductive py_result (A : Type) :=
| Return (a : A)
| Raise (e : exception).
Arguments Return {A} a.
Arguments Raise {A} e.

Definition bind {A B} (c : py_result A) (k : A -> py_result B) : py_result B :=
  match c with
  | Return a => k a
  | Raise e => Raise e
  end.

Notation "x <- c ;; k" := (bind c (fun x => k))
  (at level 61, c at next level, right associativity).

(** [try: body / except Exception as e: handler e] *)
Definition try_except {A} (body : py_result A) (handler : exception -> py_result A)
  : py_result A :=
  match body with
  | Return a => Return a
  | Raise e => handler e
  end.

Fixpoint mapM {A B} (f : A -> py_result B) (l : list A) : py_result (list B) :=
  match l with
  | [] => Return []
  | x :: xs => y <- f x ;; ys <- mapM f xs ;; Return (y :: ys)
  end.

(** ** Doubles *)

(** A Spark [double] / Python [float]: an IEEE 754 binary64 value. *)
Definition double := spec_float.

Definition double_0 : double := S754_zero false.
Definition double_1 : double := S754_finite false 4503599627370496 (-52).

(** Equality of doubles as Spark's [==] and numpy's [==] decide it when one
    side is an ordinary number: numeric comparison, where [-0.0] equals
    [0.0] and NaN equals no number. *)
Definition double_eq (x y : double) : bool := SFeqb x y.

Definition is_nan (x : double) : bool :=
  match x with S754_nan => true | _ => false end.

(** ** Column names *)

Definition lower_ascii (c : ascii) : ascii :=
  let n := nat_of_ascii c in
  if (65 <=? n) && (n <=? 90) then ascii_of_nat (n + 32) else c.

(** [str.lower()], on the ASCII letters. *)
Fixpoint lower (s : string) : string :=
  match s with
  | EmptyString => EmptyString
  | String c s' => String (lower_ascii c) (lower s')
  end.

(** Spark resolves a column name without regard to case
    ([spark.sql.caseSensitive] is false unless set, and the script does not
    set it). *)
Definition resolver (a b : string) : bool := String.eqb (lower a) (lower b).

Fixpoint indices_from (k : nat) (key : string) (keys : list string) : list nat :=
  match keys with
  | [] => []
  | x :: xs =>
      (if String.eqb x key then [k] else []) ++ indices_from (S k) key xs
  end.

(** The position of the one column that [name] names; no column, or more than
    one (an ambiguous reference), is an [AnalysisException]. *)
Definition resolve (cols : list string) (name : string) : py_result nat :=
  match indices_from 0 (lower name) (map lower cols) with
  | [i] => Return i
  | _ => Raise AnalysisException
  end.

(** ** The Spark session *)

(** What [spark.read.csv(path, header=True, sep="\t")] yields when it
    succeeds: the column names of the header and the lines below it, each
    field a string or NULL.  No schema is inferred, so every column is a
    string column. *)
Record Csv := {
  header : list string;
  records : list (list (option string))
}.

(** The session: the reader (the file system seen through it) and the two
    casts between strings and doubles the script's expressions lead to. *)
Record SparkSession := {
  read_csv : string -> py_result Csv;
  cast_string_to_double : string -> option double;
  cast_double_to_string : double -> string
}.

(** ** DataFrames *)

Inductive value :=
| VString (s : string)
| VDouble (d : double).

(** A cell; [None] is NULL. *)
Abbreviation cell := (option value) (only parsing).
Abbreviation Row := (list cell) (only parsing).

Record DataFrame := {
  columns : list string;
  rows : list Row
}.

(** A row of a CSV file laid out on the header: a line with fewer fields is
    filled with NULL, further fields are dropped. *)
Definition csv_row (n : nat) (r : list (option string)) : Row :=
  map (fun j => option_map VString (nth j r None)) (seq 0 n).

Definition csv_frame (c : Csv) : DataFrame :=
  {| columns := header c;
     rows := map (csv_row (List.length (header c))) (records c) |}.

(** [spark.createDataFrame(data, names)] *)
Definition createDataFrame (data : list Row) (names : list string) : DataFrame :=
  {| columns := names; rows := data |}.

(** *** Column expressions

    A column expression is analysed against the columns of the frame it is
    applied to (which may raise) and then evaluated on each row. *)
Definition Column := list string -> py_result (Row -> cell).
(** A condition evaluates to true, false or NULL. *)
Definition Condition := list string -> py_result (Row -> option bool).

Definition col (name : string) : Column :=
  fun cols => i <- resolve cols name ;; Return (fun r : Row => nth i r None).

Definition lit (d : double) : Column :=
  fun _ => Return (fun _ : Row => Some (VDouble d)).

Section Expressions.
Variable spark : SparkSession.

Definition to_double (c : cell) : option double :=
  match c with
  | Some (VDouble d) => Some d
  | Some (VString s) => cast_string_to_double spark s
  | None => None
  end.

Definition to_string (v : value) : string :=
  match v with
  | VString s => s
  | VDouble d => cast_double_to_string spark d
  end.

(** [c.cast("double")]: NULL when the string is no number. *)
Definition cast_double (c : Column) : Column :=
  fun cols => f <- c cols ;; Return (fun r => option_map VDouble (to_double (f r))).

(** [c == d] for a double literal [d] *)
Definition eq_lit (c : Column) (d : double) : Condition :=
  fun cols =>
    f <- c cols ;;
    Return (fun r => match to_double (f r) with
                     | Some x => Some (double_eq x d || (is_nan x && is_nan d))
                     | None => None
                     end).

(** [concat_ws(sep, c1, c2, ...)]: NULL inputs are skipped, the result is
    never NULL. *)
Definition concat_ws (sep : string) (cs : list Column) : Column :=
  fun cols =>
    fs <- mapM (fun c : Column => c cols) cs ;;
    Return (fun r =>
      Some (VString (String.concat sep
        (flat_map (fun f : Row -> cell =>
                     match f r with Some v => [to_string v] | None => [] end) fs)))).

End Expressions.

Definition isNotNull (c : Column) : Condition :=
  fun cols => f <- c cols ;;
    Return (fun r => Some (match f r with Some _ => true | None => false end)).

Definition isNull (c : Column) : Condition :=
  fun cols => f <- c cols ;;
    Return (fun r => Some (match f r with Some _ => false | None => true end)).

(** [p | q] in SQL's three-valued logic *)
Definition cond_or (p q : Condition) : Condition :=
  fun cols =>
    f <- p cols ;; g <- q cols ;;
    Return (fun r => match f r, g r with
                     | Some true, _ | _, Some true => Some true
                     | Some false, Some false => Some false
                     | _, _ => None
                     end).

(** *** DataFrame methods *)

(** The row with value [v] written in every column [key] names. *)
Fixpoint set_matching (keys : list string) (key : string) (r : Row) (v : cell) : Row :=
  match keys with
  | [] => []
  | k :: ks =>
      (if String.eqb k key then v else hd None r)
        :: set_matching ks key (tl r) v
  end.

Definition names_column (name : string) (cols : list string) : bool :=
  existsb (fun n => resolver n name) cols.

(** [df.withColumn(name, c)]: a column that [name] names is replaced (and
    takes the name as written), otherwise the column is added at the end. *)
Definition withColumn (df : DataFrame) (name : string) (c : Column)
  : py_result DataFrame :=
  f <- c (columns df) ;;
  if names_column name (columns df) then
    Return {| columns := map (fun n => if resolver n name then name else n) (columns df);
              rows := map (fun r => set_matching (map lower (columns df)) (lower name) r (f r))
                          (rows df) |}
  else
    Return {| columns := columns df ++ [name];
              rows := map (fun r => r ++ [f r]) (rows df) |}.

(** [df.filter(p)] keeps the rows on which [p] is true (not false, not NULL). *)
Definition filter (df : DataFrame) (p : Condition) : py_result DataFrame :=
  f <- p (columns df) ;;
  Return {| columns := columns df;
            rows := List.filter (fun r => match f r with Some true => true | _ => false end)
                                (rows df) |}.

(** [df.select(n1, n2, ...)] *)
Definition select (df : DataFrame) (names : list string) : py_result DataFrame :=
  idx <- mapM (resolve (columns df)) names ;;
  Return {| columns := names;
            rows := map (fun r => map (fun i => nth i r None) idx) (rows df) |}.

Definition count (df : DataFrame) : nat := List.length (rows df).

(** [name in df.columns]: Python's list membership, exact on the name. *)
Definition in_columns (name : string) (df : DataFrame) : bool :=
  existsb (String.eqb name) (columns df).

(** ** load_qqp_data *)

Definition sample_data : list Row :=
  [ [Some (VString "How do I improve my English? [SEP] What are some ways to improve my English?");
     Some (VDouble double_1)];
    [Some (VString "What is the capital of France? [SEP] What is the population of Germany?");
     Some (VDouble double_0)];
    [Some (VString "How to lose weight fast? [SEP] What are some effective ways to lose weight quickly?");
     Some (VDouble double_1)] ].

(** The frame the handler builds. *)
Definition sample_frame : DataFrame := createDataFrame sample_data ["text"; "label"].

Section Loader.
Variable spark : SparkSession.

(** The frame before its rows are counted (the [try] block up to
    [data.select(...).filter(...)]). *)
Definition load_frame (file_path : string) (is_test : bool) : py_result DataFrame :=
  csv <- read_csv spark file_path ;;
  let data := csv_frame csv in
  data <- (if negb is_test && in_columns "is_duplicate" data then
             data <- withColumn data "label" (cast_double spark (col "is_duplicate")) ;;
             data <- filter data (isNotNull (col "label")) ;;
             filter data (cond_or (eq_lit spark (col "label") double_0)
                                  (eq_lit spark (col "label") double_1))
           else if is_test then
             withColumn data "label" (lit double_0)
           else Return data) ;;
  data <- withColumn data "text"
            (concat_ws spark " [SEP] " [col "question1"; col "question2"]) ;;
  data <- select data ["text"; "label"] ;;
  filter data (isNotNull (col "text")).

(** The body of the [try] block. *)
Definition load_try (file_path : string) (is_test : bool) : py_result DataFrame :=
  data <- load_frame file_path is_test ;;
  if count data =? 0 then Raise ValueError else Return data.

Definition load_qqp_data (file_path : string) (is_test : bool) : py_result DataFrame :=
  try_except (load_try file_path is_test)
             (fun _ => Return sample_frame).

End Loader.

(** ** Python strings *)

(** [str.lower()] and [str.split()] as the interpreter carries them out.
    Both follow Unicode: [lower] maps every cased letter, [split] separates
    at every white-space character, so neither is a function of the bytes
    alone that this file can write down once and for all. *)
Record Python := {
  str_lower : string -> string;
  str_split : string -> list string
}.

(** The local function [preprocess_text] of [train_fasttext]; a value that is
    not a [str] has no tokens. *)
Definition preprocess_text (py : Python) (text : cell) : list string :=
  match text with
  | Some (VString s) => str_split py (str_lower py s)
  | _ => []
  end.

(** *** The two operations on ASCII text

    On a text whose characters are all ASCII, [str.lower()] is [lower] of the
    column names above, and [str.split()] yields the maximal runs of
    characters that are not one of the ten ASCII white-space characters. *)
Definition ascii_text (s : string) : bool :=
  forallb (fun c => nat_of_ascii c <? 128) (list_ascii_of_string s).

(** [str.isspace()] on the ASCII range. *)
Definition is_space (c : ascii) : bool :=
  let n := nat_of_ascii c in
  (n =? 32) || ((9 <=? n) && (n <=? 13)) || ((28 <=? n) && (n <=? 31)).

Definition flush (cur : string) : list string :=
  match cur with
  | EmptyString => []
  | _ => [cur]
  end.

Fixpoint split_from (cur : string) (s : string) : list string :=
  match s with
  | EmptyString => flush cur
  | String c s' =>
      if is_space c then flush cur ++ split_from EmptyString s'
      else split_from (String.append cur (String c EmptyString)) s'
  end.

(** [s.split()] of an ASCII text. *)
Definition split (s : string) : list string := split_from EmptyString s.

(** An interpreter whose [lower] and [split] are these two on ASCII text, as
    CPython's are. *)
Definition ascii_as_python (py : Python) : Prop :=
  forall s, ascii_text s = true -> str_lower py s = lower s /\ str_split py s = split s.

(** ** numpy, gensim, scikit-learn *)

(** Float arithmetic as numpy carries it out, and the parser behind
    [astype(float)]. *)
Record Numpy := {
  scalar : Type;
  s_zero : scalar;
  s_add : scalar -> scalar -> scalar;
  s_div : scalar -> scalar -> scalar;
  s_of_nat : nat -> scalar;
  float_of_string : string -> option double
}.

Definition vector (np : Numpy) := list (scalar np).

Record FastTextArgs := {
  vector_size_arg : nat;
  window : nat;
  min_count : nat;
  workers : nat;
  sg : nat;
  epochs_arg : nat
}.

(** [gensim.models.FastText]: the constructor that trains on a corpus, the
    model's [vector_size], and the two operations on [model.wv] the script
    uses: [word in model.wv] and [model.wv[word]]. *)
Record Gensim (np : Numpy) := {
  FastTextModel : Type;
  FastText : list (list string) -> FastTextArgs -> py_result FastTextModel;
  vector_size : FastTextModel -> nat;
  wv_contains : FastTextModel -> string -> bool;
  wv_getitem : FastTextModel -> string -> vector np
}.
Arguments FastTextModel {np} _.
Arguments FastText {np} _ _ _.
Arguments vector_size {np} _ _.
Arguments wv_contains {np} _ _ _.
Arguments wv_getitem {np} _ _ _.


(** [sklearn.linear_model.LogisticRegression] ([fit] takes the [max_iter] it
    was built with) and the weighted scores of [sklearn.metrics]. *)
Record Sklearn (np : Numpy) := {
  Classifier : Type;
  fit : nat -> list (vector np) -> list double -> py_result Classifier;
  predict : Classifier -> list (vector np) -> py_result (list double);
  precision_score : list double -> list double -> py_result (scalar np);
  recall_score : list double -> list double -> py_result (scalar np);
  f1_score : list double -> list double -> py_result (scalar np)
}.
Arguments Classifier {np} _.
Arguments fit {np} _ _ _ _.
Arguments predict {np} _ _ _.
Arguments precision_score {np} _ _ _.
Arguments recall_score {np} _ _ _.
Arguments f1_score {np} _ _ _.

Section Arrays.
Variable np : Numpy.

(** [np.zeros(n)] *)
Definition np_zeros (n : nat) : vector np := repeat (s_zero np) n.

Fixpoint vec_add (u v : vector np) : vector np :=
  match u, v with
  | x :: u', y :: v' => s_add np x y :: vec_add u' v'
  | _, _ => []
  end.

(** [np.mean(vs, axis=0)] for a list of vectors: the sum down the list,
    divided by the number of vectors. *)
Definition np_mean_axis0 (vs : list (vector np)) : vector np :=
  match vs with
  | [] => []
  | v :: vs' =>
      map (fun x => s_div np x (s_of_nat np (List.length vs))) (fold_left vec_add vs' v)
  end.

(** [np.mean(a == b)] for two arrays of labels: the share of the places where
    they agree. *)
Definition np_mean_eq (a b : list double) : scalar np :=
  let eqs := map (fun p => double_eq (fst p) (snd p)) (combine a b) in
  s_div np (s_of_nat np (List.length (List.filter (fun x : bool => x) eqs)))
           (s_of_nat np (List.length eqs)).

End Arrays.

(** ** The local function text_to_vector *)

Section Vectorizer.
Variable py : Python.
Variable np : Numpy.
Variable gensim : Gensim np.

Definition text_to_vector (text : cell) (model : FastTextModel gensim) : vector np :=
  let words := preprocess_text py text in
  let word_vectors :=
    map (wv_getitem gensim model) (List.filter (wv_contains gensim model) words) in
  if List.length word_vectors =? 0 then np_zeros np (vector_size gensim model)
  else np_mean_axis0 np word_vectors.

End Vectorizer.

(** ** pandas *)

(** [df.toPandas()]: the same table, collected. *)
Definition toPandas (df : DataFrame) : DataFrame := df.

Definition is_na (c : cell) : bool :=
  match c with
  | None => true
  | Some (VDouble d) => is_nan d
  | Some (VString _) => false
  end.

(** [df.dropna()]: the rows with no missing value. *)
Definition dropna (df : DataFrame) : DataFrame :=
  {| columns := columns df;
     rows := List.filter (fun r => negb (existsb is_na r)) (rows df) |}.

(** [df[name]]: the column of that exact name. *)
Definition getitem (df : DataFrame) (name : string) : py_result (list cell) :=
  match indices_from 0 name (columns df) with
  | i :: _ => Return (map (fun r : Row => nth i r None) (rows df))
  | [] => Raise KeyError
  end.

(** [series.astype(float)] *)
Definition astype_float (np : Numpy) (s : list cell) : py_result (list double) :=
  mapM (fun c : cell =>
          match c with
          | Some (VDouble d) => Return d
          | Some (VString x) =>
              match float_of_string np x with
              | Some d => Return d
              | None => Raise ValueError
              end
          | None => Return S754_nan
          end) s.

(** ** The wall clock *)

(** A run threads the reading of the wall clock; a step returns or raises, and
    leaves the clock where it stands when it ends. *)
Definition Clock := Z.
Definition Run (A : Type) := Clock -> py_result A * Clock.

Definition unit_run {A} (a : A) : Run A := fun t => (Return a, t).

Definition bind_run {A B} (c : Run A) (k : A -> Run B) : Run B :=
  fun t => match c t with
           | (Return a, t') => k a t'
           | (Raise e, t') => (Raise e, t')
           end.

Notation "x <~ c ;; k" := (bind_run c (fun x => k))
  (at level 61, c at next level, right associativity).

(** [time.time()] *)
Definition time_time : Run Z := fun t => (Return t, t).

(** The blocks of [train_fasttext], in the order they run. *)
Inductive stage :=
| Collecting      (* toPandas of both frames *)
| Cleaning        (* dropna, astype(float) *)
| Embedding       (* FastText(...) *)
| Vectorizing     (* X_train, y_train, X_test, y_test *)
| Fitting         (* fasttext_clf.fit *)
| Predicting      (* fasttext_clf.predict *)
| Scoring.        (* accuracy, precision, recall, f1 *)

(** ** train_fasttext *)

Record Metrics (np : Numpy) := {
  accuracy : scalar np;
  precision : scalar np;
  recall : scalar np;
  f1 : scalar np
}.
Arguments accuracy {np} _.
Arguments precision {np} _.
Arguments recall {np} _.
Arguments f1 {np} _.

Section FastTextRun.
Variable py : Python.
Variable np : Numpy.
Variable gensim : Gensim np.
Variable sklearn : Sklearn np.
(** How long each block takes in the run at hand. *)
Variable elapsed : stage -> Z.

(** A block: its outcome, and the clock moved on by the time it takes. *)
Definition during {A} (s : stage) (c : py_result A) : Run A :=
  fun t => (c, (t + elapsed s)%Z).

(** The locals [train_fasttext] holds once the classifier is fitted. *)
Record Fitted := {
  fasttext_model : FastTextModel gensim;
  fasttext_clf : Classifier sklearn;
  X_test : list (vector np);
  y_test : list double
}.

Definition fasttext_args (epochs : nat) : FastTextArgs :=
  {| vector_size_arg := 100; window := 5; min_count := 1; workers := 4; sg := 1;
     epochs_arg := epochs |}.

(** [[preprocess_text(text) for text in train_pandas["text"]]] *)
Definition train_sentences (train_pandas : DataFrame) : py_result (list (list string)) :=
  texts <- getitem train_pandas "text" ;;
  Return (map (preprocess_text py) texts).

(** From the data preparation to [fasttext_clf.fit(X_train, y_train)]. *)
Definition fit_classifier (train_data test_data : DataFrame) (epochs : nat) : Run Fitted :=
  frames <~ during Collecting (Return (toPandas train_data, toPandas test_data)) ;;
  cleaned <~ during Cleaning (
    let train_pandas := dropna (fst frames) in
    let test_pandas := dropna (snd frames) in
    train_label <- (l <- getitem train_pandas "label" ;; astype_float np l) ;;
    test_label <- (l <- getitem test_pandas "label" ;; astype_float np l) ;;
    Return (train_pandas, train_label, test_pandas, test_label)) ;;
  let '(train_pandas, train_label, test_pandas, test_label) := cleaned in
  model <~ during Embedding (
    sentences <- train_sentences train_pandas ;;
    FastText gensim sentences (fasttext_args epochs)) ;;
  arrays <~ during Vectorizing (
    train_text <- getitem train_pandas "text" ;;
    test_text <- getitem test_pandas "text" ;;
    Return (map (fun text => text_to_vector py np gensim text model) train_text,
            train_label,
            map (fun text => text_to_vector py np gensim text model) test_text,
            test_label)) ;;
  let '(X_train, y_train, X_test, y_test) := arrays in
  clf <~ during Fitting (fit sklearn 100 X_train y_train) ;;
  unit_run {| fasttext_model := model; fasttext_clf := clf;
              X_test := X_test; y_test := y_test |}.

(** From [fasttext_clf.predict(X_test)] to the four scores. *)
Definition score_classifier (f : Fitted) : Run (Metrics np) :=
  ft_predictions <~ during Predicting (predict sklearn (fasttext_clf f) (X_test f)) ;;
  during Scoring (
    let ft_accuracy := np_mean_eq np ft_predictions (y_test f) in
    ft_precision <- precision_score sklearn (y_test f) ft_predictions ;;
    ft_recall <- recall_score sklearn (y_test f) ft_predictions ;;
    ft_f1 <- f1_score sklearn (y_test f) ft_predictions ;;
    Return {| accuracy := ft_accuracy; precision := ft_precision;
              recall := ft_recall; f1 := ft_f1 |}).

Definition train_fasttext (train_data test_data : DataFrame) (epochs : nat)
  : Run (Metrics np * Z) :=
  start_time <~ time_time ;;
  f <~ fit_classifier train_data test_data epochs ;;
  metrics <~ score_classifier f ;;
  now <~ time_time ;;
  let training_time := (now - start_time)%Z in
  unit_run (metrics, training_time).

End FastTextRun.
Arguments fasttext_model {np gensim sklearn} _.
Arguments fasttext_clf {np gensim sklearn} _.
Arguments X_test {np gensim sklearn} _.
Arguments y_test {np gensim sklearn} _.

(** ** main *)

(** The dictionary [results]: one list per key, filled in step. *)
Record Results (np : Numpy) := {
  Model : list string;
  Accuracy : list (scalar np);
  Precision : list (scalar np);
  Recall : list (scalar np);
  F1 : list (scalar np);
  Training_Time : list Z
}.
Arguments Model {np} _.
Arguments Accuracy {np} _.
Arguments Precision {np} _.
Arguments Recall {np} _.
Arguments F1 {np} _.
Arguments Training_Time {np} _.

Definition empty_results (np : Numpy) : Results np :=
  {| Model := []; Accuracy := []; Precision := []; Recall := []; F1 := [];
     Training_Time := [] |}.

(** The six [append] calls that follow a model's run. *)
Definition append_results {np} (results : Results np) (name : string)
  (metrics : Metrics np) (time : Z) : Results np :=
  {| Model := Model results ++ [name];
     Accuracy := Accuracy results ++ [accuracy metrics];
     Precision := Precision results ++ [precision metrics];
     Recall := Recall results ++ [recall metrics];
     F1 := F1 results ++ [f1 metrics];
     Training_Time := Training_Time results ++ [time] |}.

Section Main.
Variable py : Python.
Variable spark : SparkSession.
Variable np : Numpy.
Variable gensim : Gensim np.
Variable sklearn : Sklearn np.
Variable elapsed : stage -> Z.

Definition lift {A} (c : py_result A) : Run A := fun t => (c, t).

(** Both frames loaded (each call leaves [is_test] at its default) and
    cleared of rows with a NULL label when either has one. *)
Definition load_both (data_file test_file : string) : py_result (DataFrame * DataFrame) :=
  train_data <- load_qqp_data spark data_file false ;;
  test_data <- load_qqp_data spark test_file false ;;
  nulls_train <- filter train_data (isNull (col "label")) ;;
  nulls_test <- filter test_data (isNull (col "label")) ;;
  let null_count_train := count nulls_train in
  let null_count_test := count nulls_test in
  if (0 <? null_count_train) || (0 <? null_count_test) then
    train_data <- filter train_data (isNotNull (col "label")) ;;
    test_data <- filter test_data (isNotNull (col "label")) ;;
    Return (train_data, test_data)
  else Return (train_data, test_data).

(** [main] up to the point where [results] is complete (what follows draws
    the charts from it).  The sizes and the label distribution it prints on
    the way leave the frames as they are. *)
Definition main (data_file test_file : string) (fasttext_epochs : nat) : Run (Results np) :=
  frames <~ lift (load_both data_file test_file) ;;
  let results := empty_results np in
  run <~ train_fasttext py np gensim sklearn elapsed (fst frames) (snd frames) fasttext_epochs ;;
  let '(ft_metrics, ft_time) := run in
  unit_run (append_results results "FastText" ft_metrics ft_time).

End Main.

(** ** A small world to run the script in

    Stand-ins for the libraries, used to evaluate the definitions above on
    concrete files: an interpreter for ASCII text, a session that casts
    three digits, exact rational arithmetic in place of floats, an embedding
    that remembers the training words and, as FastText with n-gram buckets
    does, has a vector for every word, and a classifier that predicts the
    first class it saw and, as scikit-learn's does, refuses an empty or
    one-class training set and an empty set to predict on. *)
Module Sample.

(** The texts of this world are ASCII. *)
Definition python : Python :=
  {| str_lower := lower;
     str_split := split |}.

(** The doubles this session reads: "0", "1" and "2"; any other string is no
    number to it. *)
Definition double_of_digit (s : string) : option double :=
  if String.eqb s "0" then Some double_0
  else if String.eqb s "1" then Some double_1
  else if String.eqb s "2" then Some (S754_finite false 4503599627370496 (-51))
  else None.

Definition string_of_double (d : double) : string :=
  if double_eq d double_0 then "0.0"
  else if double_eq d double_1 then "1.0"
  else "NaN".

Definition qqp_header : list string :=
  ["id"; "qid1"; "qid2"; "question1"; "question2"; "is_duplicate"].

(** Five lines in the layout of the QQP files; the third has no label, the
    fourth a label that is no number, the fifth a label that is neither 0
    nor 1. *)
Definition qqp_tsv : Csv :=
  {| header := qqp_header;
     records :=
       [ [Some "1"; Some "11"; Some "12"; Some "How do I read?"; Some "How can I read?"; Some "1"];
         [Some "2"; Some "21"; Some "22"; Some "What is Spark?"; Some "Where is Paris?"; Some "0"];
         [Some "3"; Some "31"; Some "32"; Some "Why?"; Some "Why not?"; None];
         [Some "4"; Some "41"; Some "42"; Some "Who?"; Some "Whom?"; Some "yes"];
         [Some "5"; Some "51"; Some "52"; Some "When?"; Some "Where?"; Some "2"] ] |}.

(** A file whose labels are all rejected. *)
Definition unlabelled_tsv : Csv :=
  {| header := qqp_header;
     records :=
       [ [Some "1"; Some "11"; Some "12"; Some "How do I read?"; Some "How can I read?"; Some "2"];
         [Some "2"; Some "21"; Some "22"; Some "What is Spark?"; Some "Where is Paris?"; None] ] |}.

(** A file with a column [label] of its own and no [is_duplicate]. *)
Definition label_tsv : Csv :=
  {| header := ["question1"; "question2"; "label"];
     records := [ [Some "How do I read?"; Some "How can I read?"; Some "duplicate"] ] |}.

(** A test file: questions only. *)
Definition test_tsv : Csv :=
  {| header := ["id"; "question1"; "question2"];
     records := [ [Some "7"; Some "Is it far?"; Some "How far is it?"] ] |}.

(** A file with a column [label] of its own in which the only line has no
    value. *)
Definition nolabel_tsv : Csv :=
  {| header := ["question1"; "question2"; "label"];
     records := [ [Some "Is it far?"; Some "How far is it?"; None] ] |}.

(** A file of duplicates only. *)
Definition duplicates_tsv : Csv :=
  {| header := qqp_header;
     records :=
       [ [Some "1"; Some "11"; Some "12"; Some "How do I read?"; Some "How can I read?"; Some "1"];
         [Some "2"; Some "21"; Some "22"; Some "Is it far?"; Some "How far is it?"; Some "1"] ] |}.

Definition files (path : string) : py_result Csv :=
  if String.eqb path "qqp.tsv" then Return qqp_tsv
  else if String.eqb path "unlabelled.tsv" then Return unlabelled_tsv
  else if String.eqb path "label.tsv" then Return label_tsv
  else if String.eqb path "test.tsv" then Return test_tsv
  else if String.eqb path "duplicates.tsv" then Return duplicates_tsv
  else if String.eqb path "nolabel.tsv" then Return nolabel_tsv
  else Raise AnalysisException.

Definition spark : SparkSession :=
  {| read_csv := files;
     cast_string_to_double := double_of_digit;
     cast_double_to_string := string_of_double |}.

Definition numpy : Numpy :=
  {| scalar := Q;
     s_zero := 0%Q;
     s_add := Qplus;
     s_div := Qdiv;
     s_of_nat := fun n => inject_Z (Z.of_nat n);
     float_of_string := double_of_digit |}.

Fixpoint distinct (seen : list string) (ws : list string) : list string :=
  match ws with
  | [] => []
  | w :: ws' =>
      if existsb (String.eqb w) seen then distinct seen ws'
      else w :: distinct (w :: seen) ws'
  end.

(** A model: its dimension and its vocabulary. *)
Definition model := (nat * list string)%type.


(** The vector of a word, in the vocabulary or not: its length in every
    coordinate. *)
Definition word_vector (m : model) (w : string) : vector numpy :=
  repeat (inject_Z (Z.of_nat (String.length w))) (fst m).

Definition gensim : Gensim numpy :=
  {| FastTextModel := model;
     FastText := fun sentences args =>
       match distinct [] (List.concat sentences) with
       | [] => Raise RuntimeError
       | vocabulary => Return (vector_size_arg args, vocabulary)
       end;
     vector_size := fst;
     wv_contains := fun _ _ => true;
     wv_getitem := word_vector |}.

Definition one_class (y : list double) : bool :=
  match y with
  | [] => true
  | c :: y' => forallb (double_eq c) y'
  end.

Definition sklearn : Sklearn numpy :=
  {| Classifier := double;
     fit := fun _ X y =>
       if (List.length X =? 0) || negb (List.length X =? List.length y) || one_class y
       then Raise ValueError
       else Return (hd double_0 y);
     predict := fun c X =>
       if List.length X =? 0 then Raise ValueError else Return (map (fun _ => c) X);
     precision_score := fun y_true y_pred => Return (np_mean_eq numpy y_pred y_true);
     recall_score := fun y_true y_pred => Return (np_mean_eq numpy y_pred y_true);
     f1_score := fun y_true y_pred => Return (np_mean_eq numpy y_pred y_true) |}.

(** A run in which predicting and scoring are the slow blocks. *)
Definition elapsed (s : stage) : Z :=
  match s with
  | Predicting => 5
  | Scoring => 5
  | _ => 1
  end.

(** The one record of [test.tsv], as a test-set load returns it. *)
Definition test_frame : DataFrame :=
  createDataFrame
    [[Some (VString "Is it far? [SEP] How far is it?"); Some (VDouble double_0)]]
    ["text"; "label"].

End Sample.

(** ** Vocabulary of the statements *)

(** Every row has a cell for every column. *)
Definition well_formed (df : DataFrame) : Prop :=
  Forall (fun r : Row => List.length r = List.length (columns df)) (rows df).

(** No two columns share a name up to case, as the CSV reader leaves a
    header (it renames the repeats). *)
Definition distinct_header (cols : list string) : Prop := NoDup (map lower cols).

(** The two cells of a record of a frame with the columns [text], [label]. *)
Definition record_text (r : Row) : cell := nth 0 r None.
Definition record_label (r : Row) : cell := nth 1 r None.

(** A label that is a double equal to 0.0 or to 1.0. *)
Definition valid_label (c : cell) : Prop :=
  exists d, c = Some (VDouble d) /\ (double_eq d double_0 = true \/ double_eq d double_1 = true).

(** The test both filters of the training branch apply to a label cell. *)
Definition keeps_label (c : cell) : bool :=
  match c with
  | Some (VDouble d) => double_eq d double_0 || double_eq d double_1
  | _ => false
  end.

Definition nonempty_text (c : cell) : Prop :=
  exists s, c = Some (VString s) /\ s <> EmptyString.

(** A cell that is no string, or an ASCII one. *)
Definition ascii_cell (c : cell) : bool :=
  match c with
  | Some (VString s) => ascii_text s
  | _ => true
  end.

(** A character that is ASCII, is none of the white-space characters (9 to
    13, 28 to 32) and no upper-case letter (65 to 90). *)
Definition token_char (c : ascii) : bool :=
  let n := nat_of_ascii c in
  (n <? 128) && negb ((9 <=? n) && (n <=? 13)) && negb ((28 <=? n) && (n <=? 32))
  && negb ((65 <=? n) && (n <=? 90)).

(** The clock reading at which a run returned, if it did. *)
Definition finished_at {A} (r : py_result A * Clock) : option Clock :=
  match r with
  | (Return _, t) => Some t
  | (Raise _, _) => None
  end.

(** The training time a run of [train_fasttext] returned, if it did. *)
Definition reported_time {A} (r : py_result (A * Z) * Clock) : option Z :=
  match r with
  | (Return (_, time), _) => Some time
  | (Raise _, _) => None
  end.

(** The cell [cast("double")] makes of a cell. *)
Definition cast_cell (spark : SparkSession) (c : cell) : cell :=
  option_map VDouble (to_double spark c).

(** The cell [concat_ws(" [SEP] ", ...)] makes of two cells. *)
Definition joined_text (spark : SparkSession) (c1 c2 : cell) : cell :=
  Some (VString (String.concat " [SEP] "
    (flat_map (fun c : cell => match c with Some v => [to_string spark v] | None => [] end)
              [c1; c2]))).

(** Inverts a chain of [bind]s that returned. *)
Ltac bind_inv H :=
  lazymatch type of H with
  | bind ?c ?k = Return ?b =>
      let a := fresh "a" in
      let Ha := fresh "Ha" in
      destruct c as [a|?] eqn:Ha;
      [ change (k a = Return b) in H; cbv beta in H | discriminate H ]
  end.

(** ** text_to_indices *)

(** [l[:stop]] *)
Definition slice_to {A} (l : list A) (stop : Z) : list A :=
  if (0 <=? stop)%Z then firstn (Z.to_nat stop) l
  else firstn (Z.to_nat (Z.of_nat (List.length l) + stop)) l.

(** [[x] * n]: empty when [n] is not positive. *)
Definition list_times {A} (x : A) (n : Z) : list A := repeat x (Z.to_nat n).

(** [d[key]] for a dictionary read through its lookup. *)
Definition dict_getitem {V} (d : string -> option V) (key : string) : py_result V :=
  match d key with
  | Some v => Return v
  | None => Raise KeyError
  end.

(** [d.get(key, default)] *)
Definition dict_get {V} (d : string -> option V) (key : string) (default : V) : V :=
  match d key with
  | Some v => v
  | None => default
  end.

(** The default [word_to_idx['<UNK>']] is evaluated for every word, before
    [get] is called. *)
Definition text_to_indices (py : Python) (text : cell) (word_to_idx : string -> option Z)
  (max_len : Z) : py_result (list Z) :=
  match text with
  | Some (VString s) =>
      let words := str_split py (str_lower py s) in
      indices <- mapM (fun word =>
                         unk <- dict_getitem word_to_idx "<UNK>" ;;
                         Return (dict_get word_to_idx word unk))
                      (slice_to words max_len) ;;
      let padding := list_times 0%Z (max_len - Z.of_nat (List.length indices)) in
      Return (indices ++ padding)
  | _ => Return (list_times 0%Z max_len)
  end.

(** ** TextDataset *)

(** The built-in exceptions of the functions below, and what a library call
    they make raised. *)
Inductive raised :=
| ZeroDivisionError
| IndexError
| Library (e : exception).

Inductive outcome (A : Type) :=
| Returns (a : A)
| Raises (r : raised).
Arguments Returns {A} a.
Arguments Raises {A} r.

Definition and_then {A B} (c : outcome A) (k : A -> outcome B) : outcome B :=
  match c with
  | Returns a => k a
  | Raises r => Raises r
  end.

Notation "x <-- c ;; k" := (and_then c (fun x => k))
  (at level 61, c at next level, right associativity).

Definition library {A} (c : py_result A) : outcome A :=
  match c with
  | Return a => Returns a
  | Raise e => Raises (Library e)
  end.

(** [l[i]] for a list: a negative index counts from the end. *)
Definition list_getitem {A} (l : list A) (i : Z) : outcome A :=
  let n := Z.of_nat (List.length l) in
  let j := if (i <? 0)%Z then (n + i)%Z else i in
  if ((0 <=? j) && (j <? n))%Z then
    match nth_error l (Z.to_nat j) with
    | Some x => Returns x
    | None => Raises IndexError
    end
  else Raises IndexError.

(** The integers a [torch.long] holds. *)
Definition is_long (z : Z) : bool := (- 2 ^ 63 <=? z)%Z && (z <? 2 ^ 63)%Z.

(** [torch.tensor(row, dtype=torch.long)] for a list of Python integers: one
    that is out of range makes it raise. *)
Definition long_tensor (row : list Z) : outcome (list Z) :=
  if forallb is_long row then Returns row else Raises (Library RuntimeError).

Section Dataset.
Variable py : Python.
(** The labels as the caller passes them, and [torch.tensor(_, dtype=torch.long)]
    on one of them, which raises for a label that has no such value. *)
Variable Label : Type.
Variable as_long : Label -> outcome Z.

Record TextDataset := {
  texts : list (list Z);
  labels : list Label
}.

Definition TextDataset_init (texts : list cell) (labels : list Label)
  (word_to_idx : string -> option Z) (max_len : Z) : py_result TextDataset :=
  rows <- mapM (fun text => text_to_indices py text word_to_idx max_len) texts ;;
  Return {| texts := rows; labels := labels |}.

Definition TextDataset_len (self : TextDataset) : nat := List.length (labels self).

(** The two tensors are built from left to right. *)
Definition TextDataset_getitem (self : TextDataset) (idx : Z) : outcome (list Z * Z) :=
  text <-- list_getitem (texts self) idx ;;
  text_tensor <-- long_tensor text ;;
  label <-- list_getitem (labels self) idx ;;
  label_tensor <-- as_long label ;;
  Returns (text_tensor, label_tensor).

End Dataset.
Arguments texts {Label} _.
Arguments labels {Label} _.
Arguments TextDataset_init _ {Label} _ _ _ _.
Arguments TextDataset_len {Label} _.
Arguments TextDataset_getitem {Label} _ _ _.

(** ** train and evaluate *)

(** What the two loops use of torch: the network together with its
    optimizer (one value, replaced at each step), its forward pass in
    training and in evaluation mode, the loss of a batch as a number, the
    update [zero_grad(); loss.backward(); optimizer.step()], the class of
    the largest output per row, and the weighted scores of
    [sklearn.metrics] on class indices. *)
Record Torch (np : Numpy) := {
  Net : Type;
  Logits : Type;
  forward_train : Net -> list (list Z) -> Logits;
  forward_eval : Net -> list (list Z) -> Logits;
  criterion_item : Logits -> list Z -> scalar np;
  optimizer_step : Net -> list (list Z) -> list Z -> Net;
  argmax : Logits -> list Z;
  weighted_precision : list Z -> list Z -> py_result (scalar np);
  weighted_recall : list Z -> list Z -> py_result (scalar np);
  weighted_f1 : list Z -> list Z -> py_result (scalar np)
}.
Arguments Net {np} _.
Arguments Logits {np} _.
Arguments forward_train {np} _ _ _.
Arguments forward_eval {np} _ _ _.
Arguments criterion_item {np} _ _ _.
Arguments optimizer_step {np} _ _ _ _.
Arguments argmax {np} _ _.
Arguments weighted_precision {np} _ _ _.
Arguments weighted_recall {np} _ _ _.
Arguments weighted_f1 {np} _ _ _.

(** A batch: the rows of indices and their labels. *)
Definition Batch := (list (list Z) * list Z)%type.

(** [(predicted == labels).sum().item()] *)
Definition count_equal (predicted labels : list Z) : nat :=
  List.length (List.filter (fun p => Z.eqb (fst p) (snd p)) (combine predicted labels)).

Section Loops.
Variable np : Numpy.
Variable torch : Torch np.

(** [x / n] for a number and an [int]. *)
Definition py_div (x : scalar np) (n : nat) : outcome (scalar np) :=
  if n =? 0 then Raises ZeroDivisionError else Returns (s_div np x (s_of_nat np n)).

(** The counters of a loop. *)
Record Tally := {
  epoch_loss : scalar np;
  correct : nat;
  total : nat;
  all_preds : list Z;
  all_labels : list Z
}.

Definition no_tally : Tally :=
  {| epoch_loss := s_zero np; correct := 0; total := 0; all_preds := []; all_labels := [] |}.

Definition tally_batch (t : Tally) (loss : scalar np) (predicted labels : list Z) : Tally :=
  {| epoch_loss := s_add np (epoch_loss t) loss;
     correct := correct t + count_equal predicted labels;
     total := total t + List.length labels;
     all_preds := all_preds t ++ predicted;
     all_labels := all_labels t ++ labels |}.

(** One turn of the loop of [train]. *)
Definition train_batch (st : Net torch * Tally) (batch : Batch) : Net torch * Tally :=
  let predictions := forward_train torch (fst st) (fst batch) in
  let loss := criterion_item torch predictions (snd batch) in
  let model := optimizer_step torch (fst st) (fst batch) (snd batch) in
  (model, tally_batch (snd st) loss (argmax torch predictions) (snd batch)).

(** [train] returns the two means, or raises; the network it leaves behind
    is the second component. *)
Definition train (model : Net torch) (iterator : list Batch)
  : outcome (scalar np * scalar np) * Net torch :=
  let st := fold_left train_batch iterator (model, no_tally) in
  (mean_loss <-- py_div (epoch_loss (snd st)) (List.length iterator) ;;
   acc <-- py_div (s_of_nat np (correct (snd st))) (total (snd st)) ;;
   Returns (mean_loss, acc),
   fst st).

(** One turn of the loop of [evaluate]: no update. *)
Definition evaluate_batch (model : Net torch) (t : Tally) (batch : Batch) : Tally :=
  let predictions := forward_eval torch model (fst batch) in
  let loss := criterion_item torch predictions (snd batch) in
  tally_batch t loss (argmax torch predictions) (snd batch).

Record Evaluation := {
  eval_loss : scalar np;
  eval_accuracy : scalar np;
  eval_precision : scalar np;
  eval_recall : scalar np;
  eval_f1 : scalar np
}.

Definition evaluate (model : Net torch) (iterator : list Batch) : outcome Evaluation :=
  let t := fold_left (evaluate_batch model) iterator no_tally in
  acc <-- py_div (s_of_nat np (correct t)) (total t) ;;
  prec <-- library (weighted_precision torch (all_labels t) (all_preds t)) ;;
  rec <-- library (weighted_recall torch (all_labels t) (all_preds t)) ;;
  f <-- library (weighted_f1 torch (all_labels t) (all_preds t)) ;;
  mean_loss <-- py_div (epoch_loss t) (List.length iterator) ;;
  Returns {| eval_loss := mean_loss; eval_accuracy := acc; eval_precision := prec;
             eval_recall := rec; eval_f1 := f |}.

(** The network classifies each row on its own: the classes of two groups of
    rows put together are the classes of the one followed by those of the
    other. *)
Definition row_wise (model : Net torch) : Prop :=
  forall rows1 rows2,
    argmax torch (forward_eval torch model (rows1 ++ rows2)) =
    argmax torch (forward_eval torch model rows1)
      ++ argmax torch (forward_eval torch model rows2).

End Loops.
Arguments eval_loss {np} _.
Arguments eval_accuracy {np} _.
Arguments eval_precision {np} _.
Arguments eval_recall {np} _.
Arguments eval_f1 {np} _.

(** ** evaluate_model *)

(** The two evaluators of [pyspark.ml.evaluation] as the function uses
    them: the area under the ROC curve of a frame of predictions, the
    multi-class metric of a given name, and the metric name a
    [MulticlassClassificationEvaluator] has when none is given. *)
Record SparkML (np : Numpy) := {
  binary_evaluate : DataFrame -> py_result (scalar np);
  multiclass_evaluate : string -> DataFrame -> py_result (scalar np);
  default_metricName : string
}.
Arguments binary_evaluate {np} _ _.
Arguments multiclass_evaluate {np} _ _ _.
Arguments default_metricName {np} _.

(** The evaluator object: the one field the function changes. *)
Record MulticlassClassificationEvaluator := { metricName : string }.

Definition setMetricName (self : MulticlassClassificationEvaluator) (value : string)
  : MulticlassClassificationEvaluator :=
  {| metricName := value |}.

Definition evaluate_model {np : Numpy} (ml : SparkML np) (predictions : DataFrame)
  (model_name : string) : py_result (scalar np * scalar np * scalar np * scalar np) :=
  auc <- binary_evaluate ml predictions ;;
  let evaluator := {| metricName := default_metricName ml |} in
  accuracy <- multiclass_evaluate ml (metricName evaluator) predictions ;;
  let evaluator := setMetricName evaluator "weightedPrecision" in
  precision <- multiclass_evaluate ml (metricName evaluator) predictions ;;
  let evaluator := setMetricName evaluator "weightedRecall" in
  recall <- multiclass_evaluate ml (metricName evaluator) predictions ;;
  let evaluator := setMetricName evaluator "f1" in
  f1 <- multiclass_evaluate ml (metricName evaluator) predictions ;;
  Return (accuracy, precision, recall, f1).

(** ** Stand-ins for torch and the Spark evaluators *)

Module SampleTorch.

(** A network that is one threshold: a row is of class 1 when its first
    index exceeds it; a step raises the threshold by one. *)
Definition classes (threshold : Z) (rows : list (list Z)) : list Z :=
  map (fun row => if (threshold <? hd 0%Z row)%Z then 1%Z else 0%Z) rows.

Definition torch : Torch Sample.numpy :=
  Build_Torch Sample.numpy Z (list Z)
    classes
    classes
    (fun predictions labels =>
       inject_Z (Z.of_nat (List.length labels - count_equal predictions labels)))
    (fun net _ _ => (net + 1)%Z)
    (fun predictions => predictions)
    (fun y_true y_pred => Return (inject_Z (Z.of_nat (count_equal y_pred y_true))))
    (fun y_true y_pred => Return (inject_Z (Z.of_nat (count_equal y_pred y_true))))
    (fun y_true y_pred => Return (inject_Z (Z.of_nat (count_equal y_pred y_true)))).

(** Evaluators that answer with a number per metric name. *)
Definition ml : SparkML Sample.numpy :=
  Build_SparkML Sample.numpy
    (fun _ => Return (1 # 2)%Q)
    (fun name _ => Return (inject_Z (Z.of_nat (String.length name))))
    "f1".

(** A vocabulary of three words. *)
Definition vocabulary (word : string) : option Z :=
  if String.eqb word "<UNK>" then Some 1%Z
  else if String.eqb word "how" then Some 2%Z
  else if String.eqb word "far" then Some 3%Z
  else None.

(** The same vocabulary without the entry for unknown words. *)
Definition vocabulary_without_unk (word : string) : option Z :=
  if String.eqb word "<UNK>" then None else vocabulary word.

(** Integer labels: the tensor of one holds it when it fits. *)
Definition label_as_long (label : Z) : outcome Z :=
  if is_long label then Returns label else Raises (Library RuntimeError).

End SampleTorch.

(** What a run of [train_fasttext] returned or raised, the time and the clock
    left out. *)
Definition returned_metrics {A} (r : py_result (A * Z) * Clock) : py_result A :=
  match fst r with
  | Return (metrics, _) => Return metrics
  | Raise e => Raise e
  end.

(** ** Files with gaps *)

Module SampleLines.

(** Three lines: both questions, the first question only, no question. *)
Definition gaps_tsv : Csv :=
  {| header := ["id"; "question1"; "question2"];
     records := [ [Some "1"; Some "Is it far?"; Some "How far is it?"];
                  [Some "2"; Some "Why?"; None];
                  [Some "3"; None; None] ] |}.

(** A file without the column [question2]. *)
Definition one_question_tsv : Csv :=
  {| header := ["id"; "question1"; "is_duplicate"];
     records := [ [Some "1"; Some "Is it far?"; Some "1"] ] |}.

Definition files (path : string) : py_result Csv :=
  if String.eqb path "gaps.tsv" then Return gaps_tsv
  else if String.eqb path "one_question.tsv" then Return one_question_tsv
  else Raise AnalysisException.

Definition spark : SparkSession :=
  {| read_csv := files;
     cast_string_to_double := Sample.double_of_digit;
     cast_double_to_string := Sample.string_of_double |}.

End SampleLines.

(** * Properties *)

(** ** Resolving column names *)

Lemma resolver_true (a b : string) : resolver a b = true <-> lower a = lower b.
Proof. unfold resolver. apply String.eqb_eq. Qed.

Lemma resolver_false (a b : string) : resolver a b = false <-> lower a <> lower b.
Proof. unfold resolver. apply String.eqb_neq. Qed.

Lemma names_column_false (name : string) (cols : list string) :
  names_column name cols = false <-> ~ In (lower name) (map lower cols).
Proof.
  unfold names_column. induction cols as [|n cols IH]; simpl.
  - split; [tauto | reflexivity].
  - rewrite orb_false_iff, IH, resolver_false. split.
    + intros [Hn Hc] [H|H]; [congruence | tauto].
    + intros H. split; [intros E; apply H; left; exact E | intros E; apply H; right; exact E].
Qed.

Lemma names_column_true (name : string) (cols : list string) :
  names_column name cols = true <-> In (lower name) (map lower cols).
Proof.
  destruct (names_column name cols) eqn:E.
  - split; [intros _ | reflexivity].
    destruct (in_dec string_dec (lower name) (map lower cols)) as [H|H]; [exact H|].
    apply names_column_false in H. congruence.
  - apply names_column_false in E. split; [discriminate | tauto].
Qed.

Lemma indices_from_bounds (key : string) (keys : list string) :
  forall k i, In i (indices_from k key keys) ->
    k <= i /\ i - k < List.length keys /\ nth (i - k) keys EmptyString = key.
Proof.
  induction keys as [|x xs IH]; simpl; intros k i H; [tauto|].
  apply in_app_or in H. destruct H as [H|H].
  - destruct (String.eqb x key) eqn:E; simpl in H; [|tauto].
    destruct H as [<-|[]]. rewrite Nat.sub_diag. apply String.eqb_eq in E.
    repeat split; [lia | lia | exact E].
  - apply IH in H. destruct H as (H1 & H2 & H3).
    replace (i - k) with (S (i - S k)) by lia.
    repeat split; [lia | lia | exact H3].
Qed.

Lemma indices_from_app (key x : string) (keys : list string) :
  forall k, indices_from k key (keys ++ [x]) =
            indices_from k key keys
              ++ (if String.eqb x key then [k + List.length keys] else []).
Proof.
  induction keys as [|y ys IH]; simpl; intros k.
  - rewrite Nat.add_0_r, app_nil_r. reflexivity.
  - rewrite IH, <- app_assoc.
    replace (k + S (List.length ys)) with (S k + List.length ys) by lia. reflexivity.
Qed.

Lemma indices_from_absent (key : string) (keys : list string) :
  forall k, ~ In key keys -> indices_from k key keys = [].
Proof.
  induction keys as [|x xs IH]; simpl; intros k H; [reflexivity|].
  destruct (String.eqb x key) eqn:E.
  - apply String.eqb_eq in E. tauto.
  - simpl. apply IH. tauto.
Qed.

Lemma indices_from_unique (key : string) (keys : list string) :
  NoDup keys -> In key keys -> forall k, exists i, indices_from k key keys = [i].
Proof.
  induction keys as [|x xs IH]; simpl; intros Hnd Hin k; [tauto|].
  inversion Hnd as [|? ? Hx Hxs]; subst.
  destruct (String.eqb x key) eqn:E.
  - apply String.eqb_eq in E. subst x.
    rewrite (indices_from_absent key xs (S k) Hx). exists k. reflexivity.
  - apply String.eqb_neq in E. destruct Hin as [H|H]; [congruence|].
    destruct (IH Hxs H (S k)) as [i Hi]. exists i. simpl. exact Hi.
Qed.

Lemma resolve_Return (cols : list string) (name : string) (i : nat) :
  resolve cols name = Return i ->
  i < List.length cols /\ nth i (map lower cols) EmptyString = lower name.
Proof.
  unfold resolve. intros H.
  destruct (indices_from 0 (lower name) (map lower cols)) as [|j [|? ?]] eqn:E;
    try discriminate.
  injection H as ->.
  destruct (indices_from_bounds (lower name) (map lower cols) 0 i) as (_ & H2 & H3).
  { rewrite E. left. reflexivity. }
  rewrite Nat.sub_0_r in H2, H3. rewrite length_map in H2. tauto.
Qed.

Lemma resolve_absent (cols : list string) (name : string) :
  names_column name cols = false -> resolve cols name = Raise AnalysisException.
Proof.
  intros H. apply names_column_false in H. unfold resolve.
  rewrite (indices_from_absent _ _ 0 H). reflexivity.
Qed.

Lemma resolve_same_keys (cols cols' : list string) (name : string) :
  map lower cols' = map lower cols -> resolve cols' name = resolve cols name.
Proof. unfold resolve. intros ->. reflexivity. Qed.

Lemma resolve_app_other (cols : list string) (name name' : string) :
  resolver name' name = false -> resolve (cols ++ [name]) name' = resolve cols name'.
Proof.
  intros H. unfold resolve. rewrite map_app. simpl. rewrite indices_from_app.
  unfold resolver in H. rewrite String.eqb_sym in H. rewrite H, app_nil_r. reflexivity.
Qed.

Lemma resolve_app_new (cols : list string) (name : string) :
  names_column name cols = false -> resolve (cols ++ [name]) name = Return (List.length cols).
Proof.
  intros H. apply names_column_false in H. unfold resolve.
  rewrite map_app. simpl. rewrite indices_from_app, String.eqb_refl.
  rewrite (indices_from_absent _ _ 0 H). simpl. rewrite length_map. reflexivity.
Qed.

Lemma resolve_distinct (cols : list string) (name : string) :
  distinct_header cols -> names_column name cols = true ->
  exists i, resolve cols name = Return i.
Proof.
  intros Hd Hn. apply names_column_true in Hn.
  destruct (indices_from_unique _ _ Hd Hn 0) as [i Hi].
  exists i. unfold resolve. rewrite Hi. reflexivity.
Qed.

(** ** Rows under withColumn *)

Lemma set_matching_length (keys : list string) (key : string) (v : cell) :
  forall r, List.length (set_matching keys key r v) = List.length keys.
Proof. induction keys as [|k ks IH]; simpl; intros r; [reflexivity | rewrite IH; reflexivity]. Qed.

Lemma set_matching_nth (keys : list string) (key : string) (v : cell) :
  forall r j, j < List.length keys ->
    nth j (set_matching keys key r v) None =
    if String.eqb (nth j keys EmptyString) key then v else nth j r None.
Proof.
  induction keys as [|k ks IH]; simpl; intros r j Hj; [lia|].
  destruct j as [|j].
  - destruct r; reflexivity.
  - rewrite IH by lia. destruct r as [|x r]; simpl; [destruct j|]; reflexivity.
Qed.

Lemma NoDup_snoc {A} (l : list A) (x : A) : NoDup l -> ~ In x l -> NoDup (l ++ [x]).
Proof.
  intros Hl Hx. apply NoDup_app; [exact Hl | repeat constructor; simpl; tauto |].
  intros a Ha [<-|[]]. exact (Hx Ha).
Qed.

Lemma lower_renamed (name : string) (cols : list string) :
  map lower (map (fun n => if resolver n name then name else n) cols) = map lower cols.
Proof.
  rewrite map_map. apply map_ext. intros n.
  destruct (resolver n name) eqn:E; [|reflexivity].
  apply resolver_true in E. congruence.
Qed.

(** What [withColumn] does to a well-formed frame: the rows are rewritten one
    by one, the new column holds the expression's value, every other column
    keeps its position and its cells. *)
Lemma withColumn_spec (df df' : DataFrame) (name : string) (c : Column) :
  well_formed df -> withColumn df name c = Return df' ->
  exists (f : Row -> cell) (g : Row -> Row),
    c (columns df) = Return f /\
    rows df' = map g (rows df) /\
    well_formed df' /\
    (forall name', resolver name' name = false ->
       resolve (columns df') name' = resolve (columns df) name') /\
    (forall j r, resolve (columns df') name = Return j ->
       List.length r = List.length (columns df) -> nth j (g r) None = f r) /\
    (forall name' i r, resolver name' name = false ->
       resolve (columns df) name' = Return i ->
       List.length r = List.length (columns df) -> nth i (g r) None = nth i r None) /\
    (forall r, List.length r = List.length (columns df) ->
       List.length (g r) = List.length (columns df')) /\
    (distinct_header (columns df) ->
       distinct_header (columns df') /\ exists j, resolve (columns df') name = Return j).
Proof.
  intros Hwf H. unfold withColumn in H. bind_inv H. rename a into f.
  destruct (names_column name (columns df)) eqn:Hn; injection H as <-; simpl.
  - (* a column of that name is replaced *)
    exists f, (fun r => set_matching (map lower (columns df)) (lower name) r (f r)).
    assert (Hlen : forall r : Row,
      List.length (set_matching (map lower (columns df)) (lower name) r (f r)) =
      List.length (map (fun n => if resolver n name then name else n) (columns df))).
    { intros r. rewrite set_matching_length, !length_map. reflexivity. }
    repeat split.
    + unfold well_formed. simpl. apply Forall_forall. intros r' Hr'.
      apply in_map_iff in Hr'. destruct Hr' as (r & <- & _). apply Hlen.
    + intros name' _. apply resolve_same_keys, lower_renamed.
    + intros j r Hj _. rewrite (resolve_same_keys _ _ _ (lower_renamed name (columns df))) in Hj.
      apply resolve_Return in Hj. destruct Hj as [Hlt Hkey].
      rewrite set_matching_nth by (rewrite length_map; exact Hlt).
      rewrite Hkey, String.eqb_refl. reflexivity.
    + intros name' i r Hne Hi _. apply resolve_Return in Hi. destruct Hi as [Hlt Hkey].
      rewrite set_matching_nth by (rewrite length_map; exact Hlt).
      rewrite Hkey. unfold resolver in Hne. rewrite Hne. reflexivity.
    + intros r _. apply Hlen.
    + unfold distinct_header in *. rewrite lower_renamed. assumption.
    + apply resolve_distinct.
      * unfold distinct_header in *. rewrite lower_renamed. assumption.
      * apply names_column_true. rewrite lower_renamed. apply names_column_true. exact Hn.
  - (* the column is added at the end *)
    exists f, (fun r => r ++ [f r]).
    repeat split.
    + unfold well_formed in *. simpl. apply Forall_forall. intros r' Hr'.
      apply in_map_iff in Hr'. destruct Hr' as (r & <- & Hr).
      rewrite Forall_forall in Hwf. rewrite !length_app, (Hwf r Hr). reflexivity.
    + intros name' Hne. apply resolve_app_other. exact Hne.
    + intros j r Hj Hr. rewrite (resolve_app_new _ _ Hn) in Hj. injection Hj as <-.
      rewrite <- Hr. apply nth_middle.
    + intros name' i r _ Hi Hr. apply resolve_Return in Hi. destruct Hi as [Hlt _].
      apply app_nth1. lia.
    + intros r Hr. rewrite !length_app, Hr. reflexivity.
    + unfold distinct_header in *. rewrite map_app. simpl.
      apply NoDup_snoc; [assumption | apply names_column_false; exact Hn].
    + exists (List.length (columns df)). apply resolve_app_new. exact Hn.
Qed.

Lemma filter_spec (df df' : DataFrame) (p : Condition) :
  filter df p = Return df' ->
  exists f, p (columns df) = Return f /\
    columns df' = columns df /\
    rows df' = List.filter (fun r => match f r with Some true => true | _ => false end)
                           (rows df).
Proof.
  unfold filter. intros H. bind_inv H. injection H as <-. eauto.
Qed.

Lemma select2_spec (df df' : DataFrame) (a b : string) :
  select df [a; b] = Return df' ->
  exists i j, resolve (columns df) a = Return i /\ resolve (columns df) b = Return j /\
    columns df' = [a; b] /\
    rows df' = map (fun r : Row => [nth i r None; nth j r None]) (rows df).
Proof.
  unfold select. intros H. bind_inv H. simpl in Ha.
  bind_inv Ha. bind_inv Ha. bind_inv Ha1.
  injection Ha1 as <-. injection Ha as <-. injection H as <-.
  eauto 10.
Qed.

Lemma well_formed_filter (df df' : DataFrame) (p : Condition) :
  well_formed df -> filter df p = Return df' -> well_formed df'.
Proof.
  intros Hwf H. apply filter_spec in H. destruct H as (f & _ & Hc & Hr).
  unfold well_formed in *. rewrite Hc, Hr. rewrite Forall_forall in *.
  intros r Hin. apply filter_In in Hin. apply Hwf, Hin.
Qed.

Lemma csv_frame_well_formed (c : Csv) : well_formed (csv_frame c).
Proof.
  unfold well_formed, csv_frame, csv_row. simpl. apply Forall_forall.
  intros r Hr. apply in_map_iff in Hr. destruct Hr as (x & <- & _).
  rewrite length_map, length_seq. reflexivity.
Qed.

(** ** The steps of load_qqp_data *)

Section LoaderSteps.
Variable spark : SparkSession.

Lemma resolve_text_of_records : resolve ["text"; "label"] "text" = Return 0.
Proof. reflexivity. Qed.

Lemma concat_ws_questions (cols : list string) (f : Row -> cell) :
  concat_ws spark " [SEP] " [col "question1"; col "question2"] cols = Return f ->
  exists i1 i2,
    resolve cols "question1" = Return i1 /\ resolve cols "question2" = Return i2 /\
    f = fun r => joined_text spark (nth i1 r None) (nth i2 r None).
Proof.
  unfold concat_ws, col. cbn [mapM bind].
  destruct (resolve cols "question1") as [i1|] eqn:E1; [|discriminate].
  destruct (resolve cols "question2") as [i2|] eqn:E2; [|discriminate].
  cbn [bind]. intros H. injection H as <-.
  exists i1, i2. repeat split.
Qed.

(** The last three steps: the text column, the projection on [text] and
    [label], and the filter on the text (which drops nothing, since
    [concat_ws] never yields NULL). *)
Lemma text_and_projection (df1 out : DataFrame) :
  well_formed df1 ->
  (data <- withColumn df1 "text"
             (concat_ws spark " [SEP] " [col "question1"; col "question2"]) ;;
   data <- select data ["text"; "label"] ;;
   filter data (isNotNull (col "text"))) = Return out ->
  exists i1 i2 jl,
    resolve (columns df1) "question1" = Return i1 /\
    resolve (columns df1) "question2" = Return i2 /\
    resolve (columns df1) "label" = Return jl /\
    columns out = ["text"; "label"] /\
    rows out = map (fun r : Row =>
                      [joined_text spark (nth i1 r None) (nth i2 r None); nth jl r None])
                   (rows df1).
Proof.
  intros Hwf H. bind_inv H. rename a into df2, Ha into Hdf2.
  bind_inv H. rename a into df3, Ha into Hdf3.
  destruct (withColumn_spec _ _ _ _ Hwf Hdf2)
    as (f & g & Hf & Hrows2 & _ & Hother & Hval & Hkeep & _).
  apply concat_ws_questions in Hf. destruct Hf as (i1 & i2 & Hq1 & Hq2 & ->).
  apply select2_spec in Hdf3. destruct Hdf3 as (jt & jl & Hjt & Hjl & Hcols3 & Hrows3).
  rewrite (Hother "label" eq_refl) in Hjl.
  apply filter_spec in H. destruct H as (f3 & Hp & Hcols & Hrows).
  rewrite Hcols3 in Hp, Hcols. unfold isNotNull, col in Hp.
  rewrite resolve_text_of_records in Hp. cbn [bind] in Hp. injection Hp as <-.
  exists i1, i2, jl. repeat split; try assumption.
  rewrite Hrows, Hrows3, Hrows2, map_map.
  unfold well_formed in Hwf. rewrite Forall_forall in Hwf.
  rewrite forallb_filter_id.
  - apply map_ext_in. intros r Hr.
    rewrite (Hval jt r Hjt (Hwf r Hr)), (Hkeep "label" jl r eq_refl Hjl (Hwf r Hr)).
    reflexivity.
  - apply forallb_forall. intros x Hx. apply in_map_iff in Hx.
    destruct Hx as (r & <- & Hr). cbn [nth].
    rewrite (Hval jt r Hjt (Hwf r Hr)). reflexivity.
Qed.

Lemma filter_twice {A} (p q : A -> bool) (l : list A) :
  List.filter q (List.filter p l) = List.filter (fun x => p x && q x) l.
Proof.
  induction l as [|x l IH]; simpl; [reflexivity|].
  destruct (p x); simpl; [destruct (q x)|]; rewrite IH; reflexivity.
Qed.

(** The training branch: the label column is the cast of [is_duplicate], and
    exactly the rows whose cast label is 0.0 or 1.0 remain. *)
Lemma label_and_filters (df0 df1 : DataFrame) :
  well_formed df0 ->
  (data <- withColumn df0 "label" (cast_double spark (col "is_duplicate")) ;;
   data <- filter data (isNotNull (col "label")) ;;
   filter data (cond_or (eq_lit spark (col "label") double_0)
                        (eq_lit spark (col "label") double_1))) = Return df1 ->
  exists i jl (g : Row -> Row),
    resolve (columns df0) "is_duplicate" = Return i /\
    resolve (columns df1) "label" = Return jl /\
    well_formed df1 /\
    (forall name', resolver name' "label" = false ->
       resolve (columns df1) name' = resolve (columns df0) name') /\
    rows df1 = map g (List.filter (fun r => keeps_label (cast_cell spark (nth i r None)))
                                  (rows df0)) /\
    (forall r, List.length r = List.length (columns df0) ->
       nth jl (g r) None = cast_cell spark (nth i r None) /\
       forall name' k, resolver name' "label" = false ->
         resolve (columns df0) name' = Return k -> nth k (g r) None = nth k r None).
Proof.
  intros Hwf H. bind_inv H. rename a into dfa, Ha into Hdfa.
  bind_inv H. rename a into dfb, Ha into Hdfb.
  destruct (withColumn_spec _ _ _ _ Hwf Hdfa)
    as (f & g & Hf & Hrows & Hwfa & Hother & Hval & Hkeep & _).
  unfold cast_double, col in Hf.
  destruct (resolve (columns df0) "is_duplicate") as [i|] eqn:Hi; [|discriminate].
  cbn [bind] in Hf. injection Hf as <-.
  pose proof (well_formed_filter _ _ _ Hwfa Hdfb) as Hwfb.
  pose proof (well_formed_filter _ _ _ Hwfb H) as Hwf1.
  apply filter_spec in Hdfb. destruct Hdfb as (f2 & Hp2 & Hc2 & Hr2).
  unfold isNotNull, col in Hp2.
  destruct (resolve (columns dfa) "label") as [jl|] eqn:Hjl; [|discriminate].
  cbn [bind] in Hp2. injection Hp2 as <-.
  apply filter_spec in H. destruct H as (f3 & Hp3 & Hc3 & Hr3).
  rewrite Hc2 in Hp3, Hc3. unfold cond_or, eq_lit, col in Hp3.
  rewrite Hjl in Hp3. cbn [bind] in Hp3. injection Hp3 as <-.
  exists i, jl, g. rewrite Hc3.
  unfold well_formed in Hwf. rewrite Forall_forall in Hwf.
  repeat split; try assumption.
  - rewrite Hr3, Hr2, Hrows, filter_twice, filter_map_swap. f_equal.
    apply filter_ext_in. intros r Hr.
    rewrite (Hval jl r eq_refl (Hwf r Hr)). unfold cast_cell.
    destruct (to_double spark (nth i r None)) as [d|]; simpl; [|reflexivity].
    rewrite !andb_false_r, !orb_false_r.
    destruct (double_eq d double_0), (double_eq d double_1); reflexivity.
  - apply Hval; [reflexivity | assumption].
  - intros name' k Hne Hk. apply (Hkeep name' k r Hne Hk). assumption.
Qed.

(** The test branch: every row gets the label 0.0. *)
Lemma placeholder_label (df0 df1 : DataFrame) :
  well_formed df0 ->
  withColumn df0 "label" (lit double_0) = Return df1 ->
  well_formed df1 /\
  exists g : Row -> Row,
    rows df1 = map g (rows df0) /\
    (forall jl r, resolve (columns df1) "label" = Return jl ->
       List.length r = List.length (columns df0) ->
       nth jl (g r) None = Some (VDouble double_0)).
Proof.
  intros Hwf H.
  destruct (withColumn_spec _ _ _ _ Hwf H)
    as (f & g & Hf & Hrows & Hwf1 & _ & Hval & _).
  unfold lit in Hf. injection Hf as <-.
  split; [assumption|]. exists g. split; [assumption|].
  intros jl r Hjl Hr. apply Hval; assumption.
Qed.

End LoaderSteps.

(** ** load_qqp_data *)

Lemma keeps_label_valid (c : cell) : keeps_label c = true -> valid_label c.
Proof.
  destruct c as [[s|d]|]; simpl; try discriminate.
  intros H. exists d. split; [reflexivity|]. apply orb_true_iff. exact H.
Qed.

Lemma load_try_Return (spark : SparkSession) (file_path : string) (is_test : bool)
  (data : DataFrame) :
  load_try spark file_path is_test = Return data ->
  load_frame spark file_path is_test = Return data /\ count data <> 0 /\
  load_qqp_data spark file_path is_test = Return data.
Proof.
  intros H. pose proof H as H0. unfold load_try in H0. bind_inv H0.
  destruct (count a =? 0) eqn:E; [discriminate|]. injection H0 as <-.
  split; [reflexivity|]. split; [apply Nat.eqb_neq; exact E|].
  unfold load_qqp_data. rewrite H. reflexivity.
Qed.

(** C1.  When reading the source raises, a training-set load does not raise:
    it returns the built-in frame, which has exactly three records, with the
    labels 1.0, 0.0, 1.0 in that order and non-empty texts. *)
Theorem load_falls_back_on_read_error (spark : SparkSession) (file_path : string)
  (e : exception) :
  read_csv spark file_path = Raise e ->
  load_qqp_data spark file_path false = Return sample_frame /\
  count sample_frame = 3 /\
  map record_label (rows sample_frame) =
    [Some (VDouble double_1); Some (VDouble double_0); Some (VDouble double_1)] /\
  Forall (fun r => nonempty_text (record_text r)) (rows sample_frame).
Proof.
  intros Hread. split; [|split; [reflexivity|split; [reflexivity|]]].
  - unfold load_qqp_data, load_try, load_frame. rewrite Hread. reflexivity.
  - repeat constructor; eexists; (split; [reflexivity | discriminate]).
Qed.

Lemma load_falls_back_on_read_error_witness :
  read_csv Sample.spark "missing.tsv" = Raise AnalysisException /\
  load_qqp_data Sample.spark "missing.tsv" false = Return sample_frame.
Proof.
  split; [reflexivity|].
  apply (load_falls_back_on_read_error Sample.spark "missing.tsv" AnalysisException).
  reflexivity.
Defined.

(** C2, as the code has it.  When the source is read and no record is left
    after the filters, the [ValueError] raised in the [try] block is caught by
    the same handler: the load returns the built-in frame. *)
Theorem empty_frame_falls_back (spark : SparkSession) (file_path : string)
  (is_test : bool) (data : DataFrame) :
  load_frame spark file_path is_test = Return data ->
  count data = 0 ->
  load_try spark file_path is_test = Raise ValueError /\
  load_qqp_data spark file_path is_test = Return sample_frame.
Proof.
  intros Hframe Hcount.
  assert (H : load_try spark file_path is_test = Raise ValueError).
  { unfold load_try. rewrite Hframe. cbn [bind]. rewrite Hcount. reflexivity. }
  split; [exact H|]. unfold load_qqp_data. rewrite H. reflexivity.
Qed.

Lemma empty_frame_falls_back_witness :
  load_qqp_data Sample.spark "unlabelled.tsv" false = Return sample_frame.
Proof.
  apply (empty_frame_falls_back Sample.spark "unlabelled.tsv" false
           {| columns := ["text"; "label"]; rows := [] |});
    reflexivity.
Defined.

(** C2 as stated fails: the file is read, both of its rows are filtered out,
    and the load returns the three built-in records instead of raising. *)
Lemma empty_dataset_is_not_raised :
  read_csv Sample.spark "unlabelled.tsv" = Return Sample.unlabelled_tsv /\
  (exists data, load_frame Sample.spark "unlabelled.tsv" false = Return data /\
                count data = 0) /\
  load_qqp_data Sample.spark "unlabelled.tsv" false = Return sample_frame /\
  (forall e, load_qqp_data Sample.spark "unlabelled.tsv" false <> Raise e).
Proof.
  split; [reflexivity|]. split; [|split].
  - eexists. split; reflexivity.
  - reflexivity.
  - intros e H. discriminate H.
Qed.

(** C5.  A training-set load of a file with an [is_duplicate] column that
    succeeds returns only records whose label is a double equal to 0.0 or to
    1.0: its rows are those of the file whose [is_duplicate] casts to such a
    double, every other row (no value, no number, another number) is
    dropped. *)
Theorem training_labels_are_valid (spark : SparkSession) (file_path : string)
  (csv : Csv) (data : DataFrame) :
  read_csv spark file_path = Return csv ->
  in_columns "is_duplicate" (csv_frame csv) = true ->
  load_try spark file_path false = Return data ->
  load_qqp_data spark file_path false = Return data /\
  Forall (fun r => valid_label (record_label r)) (rows data) /\
  exists i (text : Row -> cell),
    resolve (header csv) "is_duplicate" = Return i /\
    rows data =
      map (fun r => [text r; cast_cell spark (nth i r None)])
          (List.filter (fun r => keeps_label (cast_cell spark (nth i r None)))
                       (rows (csv_frame csv))).
Proof.
  intros Hread Hcol Htry.
  apply load_try_Return in Htry. destruct Htry as (Hframe & _ & Hload).
  split; [exact Hload|].
  unfold load_frame in Hframe. rewrite Hread in Hframe. cbn [bind] in Hframe.
  rewrite Hcol in Hframe. cbn [negb andb] in Hframe.
  bind_inv Hframe. rename a into df1, Ha into Hdf1.
  destruct (label_and_filters spark _ _ (csv_frame_well_formed csv) Hdf1)
    as (i & jl & g & Hi & Hjl & Hwf1 & _ & Hrows1 & Hg).
  destruct (text_and_projection spark _ _ Hwf1 Hframe)
    as (i1 & i2 & jl' & _ & _ & Hjl' & _ & Hrows).
  rewrite Hjl in Hjl'. injection Hjl' as <-.
  assert (Heq : rows data =
      map (fun r => [joined_text spark (nth i1 (g r) None) (nth i2 (g r) None);
                     cast_cell spark (nth i r None)])
          (List.filter (fun r => keeps_label (cast_cell spark (nth i r None)))
                       (rows (csv_frame csv)))).
  { rewrite Hrows, Hrows1, map_map. apply map_ext_in. intros r Hr.
    apply filter_In in Hr. destruct Hr as [Hr _].
    pose proof (csv_frame_well_formed csv) as Hwf0.
    unfold well_formed in Hwf0. rewrite Forall_forall in Hwf0.
    destruct (Hg r (Hwf0 r Hr)) as [-> _]. reflexivity. }
  split.
  - rewrite Heq. apply Forall_forall. intros x Hx. apply in_map_iff in Hx.
    destruct Hx as (r & <- & Hr). apply filter_In in Hr.
    apply keeps_label_valid. exact (proj2 Hr).
  - exists i, (fun r => joined_text spark (nth i1 (g r) None) (nth i2 (g r) None)).
    split; [exact Hi | exact Heq].
Qed.

Lemma training_labels_are_valid_witness :
  exists data,
    load_qqp_data Sample.spark "qqp.tsv" false = Return data /\
    Forall (fun r => valid_label (record_label r)) (rows data) /\
    count data = 2.
Proof.
  eexists. 
  destruct (training_labels_are_valid Sample.spark "qqp.tsv" Sample.qqp_tsv _
              eq_refl eq_refl eq_refl) as (H1 & H2 & _).
  split; [exact H1|]. split; [exact H2 | reflexivity].
Defined.

(** C8, as the code has it.  A load with [is_test] set that does not fall
    back returns only records with the placeholder label 0.0.  (The built-in
    frame of the fallback is the same for both kinds of load, and two of its
    labels are 1.0.) *)
Theorem test_labels_are_placeholders (spark : SparkSession) (file_path : string)
  (data : DataFrame) :
  load_try spark file_path true = Return data ->
  load_qqp_data spark file_path true = Return data /\
  Forall (fun r => record_label r = Some (VDouble double_0)) (rows data).
Proof.
  intros Htry. apply load_try_Return in Htry. destruct Htry as (Hframe & _ & Hload).
  split; [exact Hload|].
  unfold load_frame in Hframe. bind_inv Hframe. rename a into csv.
  cbn [negb andb] in Hframe.
  bind_inv Hframe. rename a into df1, Ha0 into Hdf1.
  pose proof (csv_frame_well_formed csv) as Hwf0.
  destruct (placeholder_label _ _ Hwf0 Hdf1) as (Hwf1 & g & Hrows1 & Hg).
  destruct (text_and_projection spark _ _ Hwf1 Hframe)
    as (i1 & i2 & jl & _ & _ & Hjl & _ & Hrows).
  rewrite Hrows, Hrows1, map_map. apply Forall_forall. intros x Hx.
  apply in_map_iff in Hx. destruct Hx as (r & <- & Hr).
  unfold well_formed in Hwf0. rewrite Forall_forall in Hwf0.
  unfold record_label. cbn [nth]. apply (Hg jl r Hjl (Hwf0 r Hr)).
Qed.

Lemma test_labels_are_placeholders_witness :
  exists data,
    load_qqp_data Sample.spark "test.tsv" true = Return data /\
    Forall (fun r => record_label r = Some (VDouble double_0)) (rows data) /\
    count data = 1.
Proof.
  eexists.
  destruct (test_labels_are_placeholders Sample.spark "test.tsv" _ eq_refl) as (H1 & H2).
  split; [exact H1|]. split; [exact H2 | reflexivity].
Defined.

(** C8 as stated fails on the fallback: a test-set load of a source that
    cannot be read returns the built-in frame, whose first label is 1.0. *)
Lemma fallback_of_test_load_has_label_one :
  load_qqp_data Sample.spark "missing.tsv" true = Return sample_frame /\
  map record_label (rows sample_frame) =
    [Some (VDouble double_1); Some (VDouble double_0); Some (VDouble double_1)] /\
  double_eq double_1 double_0 = false /\
  ~ Forall (fun r => record_label r = Some (VDouble double_0)) (rows sample_frame).
Proof.
  repeat split. intros H. inversion H as [|? ? H1 _]. discriminate H1.
Qed.

(** C10, as the code has it.  A training-set load of a file that has neither
    an [is_duplicate] column nor a column that the name [label] resolves to
    returns the built-in frame: the projection on [label] raises, and the
    handler catches it. *)
Theorem no_label_column_falls_back (spark : SparkSession) (file_path : string)
  (csv : Csv) :
  read_csv spark file_path = Return csv ->
  in_columns "is_duplicate" (csv_frame csv) = false ->
  names_column "label" (header csv) = false ->
  (exists e, load_frame spark file_path false = Raise e) /\
  load_qqp_data spark file_path false = Return sample_frame.
Proof.
  intros Hread Hdup Hlabel.
  assert (H : exists e, load_frame spark file_path false = Raise e).
  { destruct (load_frame spark file_path false) as [data|e] eqn:Hframe; [|eauto].
    exfalso. unfold load_frame in Hframe. rewrite Hread in Hframe.
    cbn [bind] in Hframe. rewrite Hdup in Hframe. cbn [negb andb bind] in Hframe.
    destruct (text_and_projection spark _ _ (csv_frame_well_formed csv) Hframe)
      as (_ & _ & jl & _ & _ & Hjl & _).
    simpl in Hjl. rewrite (resolve_absent _ _ Hlabel) in Hjl. discriminate. }
  split; [exact H|]. destruct H as [e He].
  unfold load_qqp_data, load_try. rewrite He. reflexivity.
Qed.

Lemma no_label_column_falls_back_witness :
  load_qqp_data Sample.spark "test.tsv" false = Return sample_frame.
Proof.
  apply (no_label_column_falls_back Sample.spark "test.tsv" Sample.test_tsv);
    reflexivity.
Defined.

(** C10 as stated fails when the file has a column [label] of its own: no
    [is_duplicate] column, no label column is created, and yet the projection
    succeeds and the load returns the file's record, with the file's string
    in the label. *)
Lemma own_label_column_is_projected :
  read_csv Sample.spark "label.tsv" = Return Sample.label_tsv /\
  in_columns "is_duplicate" (csv_frame Sample.label_tsv) = false /\
  load_qqp_data Sample.spark "label.tsv" false =
    Return {| columns := ["text"; "label"];
              rows := [[Some (VString "How do I read? [SEP] How can I read?");
                        Some (VString "duplicate")]] |} /\
  load_qqp_data Sample.spark "label.tsv" false <> Return sample_frame.
Proof.
  repeat split. intros H. discriminate H.
Qed.

(** ** A valid pair is loaded *)

Lemma csv_row_nth (n i : nat) (raw : list (option string)) :
  i < n -> nth i (csv_row n raw) None = option_map VString (nth i raw None).
Proof.
  intros Hi. unfold csv_row.
  rewrite (nth_indep _ None (option_map VString (nth 0 raw None)))
    by (rewrite length_map, length_seq; exact Hi).
  rewrite (map_nth (fun j => option_map VString (nth j raw None))).
  rewrite seq_nth by exact Hi. reflexivity.
Qed.

Lemma withColumn_returns (df : DataFrame) (name : string) (c : Column) (f : Row -> cell) :
  c (columns df) = Return f -> exists df', withColumn df name c = Return df'.
Proof.
  intros H. unfold withColumn. rewrite H. cbn [bind].
  destruct (names_column name (columns df)); eauto.
Qed.

Section LoaderReturns.
Variable spark : SparkSession.

Lemma label_and_filters_return (df0 : DataFrame) (i : nat) :
  well_formed df0 -> distinct_header (columns df0) ->
  resolve (columns df0) "is_duplicate" = Return i ->
  exists df1,
    (data <- withColumn df0 "label" (cast_double spark (col "is_duplicate")) ;;
     data <- filter data (isNotNull (col "label")) ;;
     filter data (cond_or (eq_lit spark (col "label") double_0)
                          (eq_lit spark (col "label") double_1))) = Return df1 /\
    distinct_header (columns df1).
Proof.
  intros Hwf Hd Hi.
  assert (Hc : cast_double spark (col "is_duplicate") (columns df0) =
               Return (fun r => cast_cell spark (nth i r None))).
  { unfold cast_double, col. rewrite Hi. reflexivity. }
  destruct (withColumn_returns df0 "label" _ _ Hc) as [dfa Hdfa].
  rewrite Hdfa. cbn [bind].
  destruct (withColumn_spec _ _ _ _ Hwf Hdfa)
    as (f & g & _ & _ & _ & _ & _ & _ & _ & Hdist).
  destruct (Hdist Hd) as [Hda [jl Hjl]].
  unfold filter, isNotNull, cond_or, eq_lit, col.
  rewrite Hjl. cbn [bind columns]. rewrite Hjl. cbn [bind columns].
  eexists. split; [reflexivity | exact Hda].
Qed.

Lemma text_and_projection_return (df1 : DataFrame) (i1 i2 jl : nat) :
  well_formed df1 -> distinct_header (columns df1) ->
  resolve (columns df1) "question1" = Return i1 ->
  resolve (columns df1) "question2" = Return i2 ->
  resolve (columns df1) "label" = Return jl ->
  exists out,
    (data <- withColumn df1 "text"
               (concat_ws spark " [SEP] " [col "question1"; col "question2"]) ;;
     data <- select data ["text"; "label"] ;;
     filter data (isNotNull (col "text"))) = Return out.
Proof.
  intros Hwf Hd H1 H2 Hl.
  assert (Hc : concat_ws spark " [SEP] " [col "question1"; col "question2"] (columns df1) =
               Return (fun r => joined_text spark (nth i1 r None) (nth i2 r None))).
  { unfold concat_ws, col. cbn [mapM bind]. rewrite H1, H2. reflexivity. }
  destruct (withColumn_returns df1 "text" _ _ Hc) as [df2 Hdf2].
  rewrite Hdf2. cbn [bind].
  destruct (withColumn_spec _ _ _ _ Hwf Hdf2)
    as (f & g & _ & _ & _ & Hother & _ & _ & _ & Hdist).
  destruct (Hdist Hd) as [_ [jt Hjt]].
  unfold select. cbn [mapM bind]. rewrite Hjt, (Hother "label" eq_refl), Hl.
  cbn [bind]. unfold filter, isNotNull, col. cbn [columns].
  rewrite resolve_text_of_records. cbn [bind]. eexists. reflexivity.
Qed.

End LoaderReturns.

(** C9.  In a training-set load of a file with the columns [question1],
    [question2] and [is_duplicate] (and a header without repeated names, as
    the reader leaves it), a line with both questions and with [is_duplicate]
    "0" or "1" yields a record of the returned frame whose text is question1,
    then " [SEP] ", then question2, and whose label is 0.0 or 1.0
    accordingly.  The session is one whose cast reads "0" as 0.0 and "1" as
    1.0. *)
Theorem valid_pair_is_loaded (spark : SparkSession) (file_path : string) (csv : Csv)
  (raw : list (option string)) (i1 i2 i : nat) (q1 q2 lbl : string) (d : double) :
  cast_string_to_double spark "0" = Some double_0 ->
  cast_string_to_double spark "1" = Some double_1 ->
  read_csv spark file_path = Return csv ->
  distinct_header (header csv) ->
  In "is_duplicate" (header csv) ->
  resolve (header csv) "question1" = Return i1 ->
  resolve (header csv) "question2" = Return i2 ->
  resolve (header csv) "is_duplicate" = Return i ->
  In raw (records csv) ->
  nth i1 raw None = Some q1 ->
  nth i2 raw None = Some q2 ->
  nth i raw None = Some lbl ->
  (lbl = "0" /\ d = double_0) \/ (lbl = "1" /\ d = double_1) ->
  exists data,
    load_qqp_data spark file_path false = Return data /\
    load_frame spark file_path false = Return data /\
    In [Some (VString (q1 ++ " [SEP] " ++ q2)); Some (VDouble d)] (rows data).
Proof.
  intros Hc0 Hc1 Hread Hd Hin Hq1 Hq2 Hi Hraw Hv1 Hv2 Hv Hlbl.
  pose proof (csv_frame_well_formed csv) as Hwf0.
  destruct (label_and_filters_return spark (csv_frame csv) i Hwf0 Hd Hi)
    as (df1 & Hdf1 & Hd1).
  destruct (label_and_filters spark _ _ Hwf0 Hdf1)
    as (i' & jl & g & Hi' & Hjl & Hwf1 & Hother & Hrows1 & Hg).
  simpl in Hi'. rewrite Hi in Hi'. injection Hi' as <-.
  assert (Hq1' : resolve (columns df1) "question1" = Return i1).
  { rewrite (Hother "question1" eq_refl). exact Hq1. }
  assert (Hq2' : resolve (columns df1) "question2" = Return i2).
  { rewrite (Hother "question2" eq_refl). exact Hq2. }
  destruct (text_and_projection_return spark df1 i1 i2 jl Hwf1 Hd1 Hq1' Hq2' Hjl)
    as (out & Hout).
  destruct (text_and_projection spark _ _ Hwf1 Hout)
    as (j1 & j2 & jl' & Hj1 & Hj2 & Hjl' & _ & Hrows).
  rewrite Hq1' in Hj1. injection Hj1 as <-.
  rewrite Hq2' in Hj2. injection Hj2 as <-.
  rewrite Hjl in Hjl'. injection Hjl' as <-.
  assert (Hframe : load_frame spark file_path false = Return out).
  { unfold load_frame. rewrite Hread. cbn [bind].
    assert (Hcol : in_columns "is_duplicate" (csv_frame csv) = true).
    { unfold in_columns. apply existsb_exists. exists "is_duplicate".
      split; [exact Hin | reflexivity]. }
    rewrite Hcol. cbn [negb andb]. rewrite Hdf1. cbn [bind]. exact Hout. }
  (* the line, as a row of the frame *)
  set (r0 := csv_row (List.length (header csv)) raw).
  assert (Hr0 : In r0 (rows (csv_frame csv))).
  { simpl. apply in_map. exact Hraw. }
  assert (Hlen : List.length r0 = List.length (columns (csv_frame csv))).
  { unfold well_formed in Hwf0. rewrite Forall_forall in Hwf0. apply Hwf0, Hr0. }
  assert (Hcell : forall k name s, resolve (header csv) name = Return k ->
            nth k raw None = Some s -> nth k r0 None = Some (VString s)).
  { intros k name s Hk Hs. apply resolve_Return in Hk. unfold r0.
    rewrite csv_row_nth by tauto. rewrite Hs. reflexivity. }
  assert (Hcast : cast_cell spark (nth i r0 None) = Some (VDouble d)).
  { rewrite (Hcell i _ lbl Hi Hv). unfold cast_cell. simpl.
    destruct Hlbl as [[-> ->]|[-> ->]]; [rewrite Hc0 | rewrite Hc1]; reflexivity. }
  assert (Hin1 : In (g r0) (rows df1)).
  { rewrite Hrows1. apply in_map. apply filter_In. split; [exact Hr0|].
    rewrite Hcast. destruct Hlbl as [[_ ->]|[_ ->]]; reflexivity. }
  assert (Hrec : In [Some (VString (q1 ++ " [SEP] " ++ q2)); Some (VDouble d)] (rows out)).
  { rewrite Hrows. apply in_map_iff. exists (g r0). split; [|exact Hin1].
    destruct (Hg r0 Hlen) as [Hlabel Hsame].
    rewrite Hlabel, Hcast.
    rewrite (Hsame "question1" i1 eq_refl Hq1), (Hsame "question2" i2 eq_refl Hq2).
    rewrite (Hcell i1 _ q1 Hq1 Hv1), (Hcell i2 _ q2 Hq2 Hv2). reflexivity. }
  exists out. split; [|split; [exact Hframe | exact Hrec]].
  unfold load_qqp_data, load_try. rewrite Hframe. cbn [bind].
  destruct (count out =? 0) eqn:E; [|reflexivity].
  apply Nat.eqb_eq in E. unfold count in E.
  destruct (rows out); [destruct Hrec | discriminate E].
Qed.

Lemma valid_pair_is_loaded_witness :
  exists data,
    load_qqp_data Sample.spark "qqp.tsv" false = Return data /\
    load_frame Sample.spark "qqp.tsv" false = Return data /\
    In [Some (VString "What is Spark? [SEP] Where is Paris?"); Some (VDouble double_0)]
       (rows data).
Proof.
  apply (valid_pair_is_loaded Sample.spark "qqp.tsv" Sample.qqp_tsv
           [Some "2"; Some "21"; Some "22"; Some "What is Spark?"; Some "Where is Paris?";
            Some "0"]
           3 4 5 "What is Spark?" "Where is Paris?" "0" double_0);
    try reflexivity.
  - unfold distinct_header. simpl.
    repeat (constructor; [simpl; intuition discriminate|]). constructor.
  - simpl. tauto.
  - simpl. tauto.
  - left. split; reflexivity.
Defined.

(** ** text_to_vector *)

Section VectorFacts.
Variable np : Numpy.

Lemma np_zeros_length (n : nat) : List.length (np_zeros np n) = n.
Proof. apply repeat_length. Qed.

Lemma vec_add_length (u v : vector np) :
  List.length u = List.length v -> List.length (vec_add np u v) = List.length u.
Proof.
  revert v. induction u as [|x u IH]; intros [|y v] H; simpl in *; try discriminate;
    [reflexivity|]. rewrite IH; [reflexivity | lia].
Qed.

Lemma vec_add_nth (u v : vector np) (i : nat) (d : scalar np) :
  List.length u = List.length v -> i < List.length u ->
  nth i (vec_add np u v) d = s_add np (nth i u d) (nth i v d).
Proof.
  revert v i. induction u as [|x u IH]; intros [|y v] i H Hi; simpl in *;
    try discriminate; [lia|].
  destruct i as [|i]; [reflexivity|]. apply IH; lia.
Qed.

(** The sum down a list of vectors of one length, coordinate by coordinate. *)
Lemma sum_axis0 (n : nat) (d : scalar np) (vs : list (vector np)) :
  forall v, List.length v = n -> Forall (fun x => List.length x = n) vs ->
    List.length (fold_left (vec_add np) vs v) = n /\
    forall i, i < n ->
      nth i (fold_left (vec_add np) vs v) d =
      fold_left (s_add np) (map (fun x => nth i x d) vs) (nth i v d).
Proof.
  induction vs as [|x vs IH]; intros v Hv Hvs; simpl.
  - split; [exact Hv | reflexivity].
  - pose proof (Forall_inv Hvs) as Hx. pose proof (Forall_inv_tail Hvs) as Hvs'.
    simpl in Hx.
    assert (Hl : List.length (vec_add np v x) = n).
    { rewrite vec_add_length; congruence. }
    destruct (IH (vec_add np v x) Hl Hvs') as [IH1 IH2].
    split; [exact IH1|]. intros i Hi. rewrite (IH2 i Hi).
    rewrite vec_add_nth by congruence. reflexivity.
Qed.

End VectorFacts.






(** The vocabulary plays no part: a word of the training corpus and one that
    is new to the model enter the mean alike. *)
Example text_to_vector_mixed_tokens :
  text_to_vector Sample.python Sample.numpy Sample.gensim
    (Some (VString "How far away")) (3, ["how"; "far"; "it"]) = [10 # 3; 10 # 3; 10 # 3]%Q.
Proof. reflexivity. Qed.

(** ** train_fasttext *)

Section RunFacts.
Variable py : Python.
Variable np : Numpy.
Variable gensim : Gensim np.
Variable sklearn : Sklearn np.
Variable elapsed : stage -> Z.

Lemma bind_during {A B} (s : stage) (c : py_result A) (k : A -> Run B) (b : B)
  (t t' : Clock) :
  bind_run (during elapsed s c) k t = (Return b, t') ->
  exists a, c = Return a /\ k a (t + elapsed s)%Z = (Return b, t').
Proof.
  unfold bind_run, during. destruct c as [a|e]; intros H; [eauto | discriminate].
Qed.

(** When the classifier is fitted, the five blocks up to the fit have run,
    and the embedding model is the one [FastText] returns on the sentences of
    the training frame. *)
Lemma fit_classifier_Return (train_data test_data : DataFrame) (epochs : nat)
  (t0 t1 : Clock) (f : Fitted np gensim sklearn) :
  fit_classifier py np gensim sklearn elapsed train_data test_data epochs t0 = (Return f, t1) ->
  t1 = (t0 + elapsed Collecting + elapsed Cleaning + elapsed Embedding
           + elapsed Vectorizing + elapsed Fitting)%Z /\
  exists sentences,
    train_sentences py (dropna (toPandas train_data)) = Return sentences /\
    FastText gensim sentences (fasttext_args epochs) = Return (fasttext_model f).
Proof.
  unfold fit_classifier. intros H.
  apply bind_during in H. destruct H as (frames & Hframes & H).
  injection Hframes as <-.
  apply bind_during in H. destruct H as (cleaned & Hcleaned & H).
  cbn [fst snd] in Hcleaned.
  bind_inv Hcleaned. bind_inv Hcleaned. injection Hcleaned as <-.
  apply bind_during in H. destruct H as (model & Hmodel & H).
  bind_inv Hmodel. rename a1 into sentences.
  apply bind_during in H. destruct H as (arrays & Harrays & H).
  bind_inv Harrays. bind_inv Harrays. injection Harrays as <-.
  apply bind_during in H. destruct H as (clf & Hclf & H).
  unfold unit_run in H. injection H as <- <-.
  split; [reflexivity|]. exists sentences. split; [reflexivity | exact Hmodel].
Qed.

Lemma score_classifier_Return (f : Fitted np gensim sklearn) (t1 t2 : Clock)
  (m : Metrics np) :
  score_classifier np gensim sklearn elapsed f t1 = (Return m, t2) ->
  t2 = (t1 + elapsed Predicting + elapsed Scoring)%Z.
Proof.
  unfold score_classifier. intros H.
  apply bind_during in H. destruct H as (predictions & _ & H).
  unfold during in H. injection H as _ <-. reflexivity.
Qed.

End RunFacts.

(** C6.  The embedding model of a run is what [FastText] returns on the
    tokenized texts of the training frame: two runs on the same training
    frame that reach the fitted classifier hold the same model, whatever the
    two test frames are (and whenever the runs start). *)
Theorem embedding_ignores_test_data (py : Python) (np : Numpy)
  (gensim : Gensim np) (sklearn : Sklearn np) (elapsed : stage -> Z)
  (train_data test_data1 test_data2 : DataFrame) (epochs : nat)
  (t1 t1' t2 t2' : Clock) (f1 f2 : Fitted np gensim sklearn) :
  fit_classifier py np gensim sklearn elapsed train_data test_data1 epochs t1 = (Return f1, t1') ->
  fit_classifier py np gensim sklearn elapsed train_data test_data2 epochs t2 = (Return f2, t2') ->
  fasttext_model f1 = fasttext_model f2 /\
  exists sentences,
    train_sentences py (dropna (toPandas train_data)) = Return sentences /\
    FastText gensim sentences (fasttext_args epochs) = Return (fasttext_model f1).
Proof.
  intros H1 H2.
  apply fit_classifier_Return in H1. destruct H1 as (_ & s1 & Hs1 & Hm1).
  apply fit_classifier_Return in H2. destruct H2 as (_ & s2 & Hs2 & Hm2).
  rewrite Hs1 in Hs2. injection Hs2 as <-.
  rewrite Hm1 in Hm2. injection Hm2 as Hm.
  split; [exact Hm|]. exists s1. split; [exact Hs1 | exact Hm1].
Qed.

(** C4, as the code has it.  The time [train_fasttext] reports is the span
    from its entry to the end of the scoring: the blocks up to the fit, and
    then the prediction on the test set and the four scores as well. *)
Theorem training_time_spans_scoring (py : Python) (np : Numpy)
  (gensim : Gensim np) (sklearn : Sklearn np) (elapsed : stage -> Z)
  (train_data test_data : DataFrame) (epochs : nat)
  (t0 t1 t2 : Clock) (f : Fitted np gensim sklearn) (m : Metrics np) :
  fit_classifier py np gensim sklearn elapsed train_data test_data epochs t0 = (Return f, t1) ->
  score_classifier np gensim sklearn elapsed f t1 = (Return m, t2) ->
  train_fasttext py np gensim sklearn elapsed train_data test_data epochs t0 =
    (Return (m, (t2 - t0)%Z), t2) /\
  (t2 - t0 = (t1 - t0) + (elapsed Predicting + elapsed Scoring))%Z /\
  (t1 - t0 = elapsed Collecting + elapsed Cleaning + elapsed Embedding
             + elapsed Vectorizing + elapsed Fitting)%Z.
Proof.
  intros Hfit Hscore. split.
  - unfold train_fasttext, bind_run, time_time, unit_run.
    rewrite Hfit, Hscore. reflexivity.
  - apply fit_classifier_Return in Hfit. destruct Hfit as [-> _].
    apply score_classifier_Return in Hscore. subst t2. split; lia.
Qed.

Lemma finished_at_Some {A} (r : py_result A * Clock) (t : Clock) :
  finished_at r = Some t -> exists a, r = (Return a, t).
Proof.
  destruct r as [[a|e] t']; simpl; intros H; [|discriminate].
  injection H as ->. exists a. reflexivity.
Defined.

Lemma bind_run_finished {A B} (c : Run A) (k : A -> Run B) (t t' : Clock) :
  finished_at (bind_run c k t) = Some t' ->
  exists a t1 b, c t = (Return a, t1) /\ k a t1 = (Return b, t').
Proof.
  unfold bind_run. destruct (c t) as [[a|e] t1]; [|discriminate].
  intros H. apply finished_at_Some in H. destruct H as [b H]. eauto.
Defined.

Lemma embedding_ignores_test_data_witness :
  exists f1 f2,
    fit_classifier Sample.python Sample.numpy Sample.gensim Sample.sklearn Sample.elapsed
      sample_frame sample_frame 3 0%Z = (Return f1, 5%Z) /\
    fit_classifier Sample.python Sample.numpy Sample.gensim Sample.sklearn Sample.elapsed
      sample_frame Sample.test_frame 3 1000%Z = (Return f2, 1005%Z) /\
    fasttext_model f1 = fasttext_model f2.
Proof.
  destruct (finished_at_Some
              (fit_classifier Sample.python Sample.numpy Sample.gensim Sample.sklearn Sample.elapsed
                 sample_frame sample_frame 3 0%Z) 5%Z) as [f1 H1];
    [vm_compute; reflexivity|].
  destruct (finished_at_Some
              (fit_classifier Sample.python Sample.numpy Sample.gensim Sample.sklearn Sample.elapsed
                 sample_frame Sample.test_frame 3 1000%Z) 1005%Z) as [f2 H2];
    [vm_compute; reflexivity|].
  exists f1, f2. split; [exact H1|]. split; [exact H2|].
  exact (proj1 (embedding_ignores_test_data _ _ _ _ _ _ _ _ _ _ _ _ _ _ _ H1 H2)).
Defined.

Lemma training_time_spans_scoring_witness :
  exists m,
    train_fasttext Sample.python Sample.numpy Sample.gensim Sample.sklearn Sample.elapsed
      sample_frame sample_frame 3 1000%Z = (Return (m, 15%Z), 1015%Z).
Proof.
  destruct (bind_run_finished
              (fit_classifier Sample.python Sample.numpy Sample.gensim Sample.sklearn Sample.elapsed
                 sample_frame sample_frame 3)
              (score_classifier Sample.numpy Sample.gensim Sample.sklearn Sample.elapsed)
              1000%Z 1015%Z) as (f & t1 & m & H1 & H2);
    [vm_compute; reflexivity|].
  exists m.
  exact (proj1 (training_time_spans_scoring _ _ _ _ _ _ _ _ _ _ _ _ _ H1 H2)).
Defined.

(** C4 as stated fails: in this run the classifier is fitted 5 ticks after
    the entry, the prediction and the scores take 10 more, and the reported
    time is 15: it is no span that ends when the fit does. *)
Lemma reported_time_includes_scoring :
  finished_at (fit_classifier Sample.python Sample.numpy Sample.gensim Sample.sklearn Sample.elapsed
                 sample_frame sample_frame 3 1000%Z) = Some 1005%Z /\
  finished_at (train_fasttext Sample.python Sample.numpy Sample.gensim Sample.sklearn Sample.elapsed
                 sample_frame sample_frame 3 1000%Z) = Some 1015%Z /\
  reported_time (train_fasttext Sample.python Sample.numpy Sample.gensim Sample.sklearn
                   Sample.elapsed sample_frame sample_frame 3 1000%Z) = Some 15%Z /\
  (forall start : Z, 1000 <= start -> 15 <> 1005 - start)%Z.
Proof.
  split; [vm_compute; reflexivity|].
  split; [vm_compute; reflexivity|].
  split; [vm_compute; reflexivity|]. intros start H. lia.
Qed.

(** ** main *)

Lemma resolve_label_of_records : resolve ["text"; "label"] "label" = Return 1.
Proof. reflexivity. Qed.

(** A load always returns, and what it returns has the columns [text] and
    [label]. *)
Lemma load_qqp_data_returns (spark : SparkSession) (file_path : string) (is_test : bool) :
  exists data,
    load_qqp_data spark file_path is_test = Return data /\
    columns data = ["text"; "label"].
Proof.
  unfold load_qqp_data, try_except.
  destruct (load_try spark file_path is_test) as [data|e] eqn:Htry;
    [|exists sample_frame; split; reflexivity].
  exists data. split; [reflexivity|].
  apply load_try_Return in Htry. destruct Htry as (Hframe & _ & _).
  unfold load_frame in Hframe. bind_inv Hframe. rename a into csv.
  bind_inv Hframe. rename a into df1, Ha0 into Hdf1.
  pose proof (csv_frame_well_formed csv) as Hwf0.
  assert (Hwf1 : well_formed df1).
  { destruct (negb is_test && in_columns "is_duplicate" (csv_frame csv)).
    - destruct (label_and_filters spark _ _ Hwf0 Hdf1) as (? & ? & ? & _ & _ & H & _).
      exact H.
    - destruct is_test.
      + exact (proj1 (placeholder_label _ _ Hwf0 Hdf1)).
      + injection Hdf1 as <-. exact Hwf0. }
  destruct (text_and_projection spark _ _ Hwf1 Hframe) as (? & ? & ? & _ & _ & _ & H & _).
  exact H.
Qed.

Lemma load_both_returns (spark : SparkSession) (data_file test_file : string) :
  exists frames, load_both spark data_file test_file = Return frames.
Proof.
  unfold load_both.
  destruct (load_qqp_data_returns spark data_file false) as (train & -> & Htrain).
  destruct (load_qqp_data_returns spark test_file false) as (test & -> & Htest).
  cbn [bind]. unfold filter, isNull, isNotNull, col.
  rewrite Htrain, Htest, resolve_label_of_records. cbn [bind].
  match goal with |- context [if ?b then _ else _] => destruct b end; eauto.
Qed.

(** C3, as the code has it.  [main] calls [train_fasttext] for its one
    variant with no handler around the call: the data is always loaded, and
    then, if the training or the evaluation raises, [main] raises the same
    exception where it stands and no entry is recorded; if they return,
    [results] holds exactly the entry of that variant. *)
Theorem main_runs_one_unguarded_variant (py : Python) (spark : SparkSession)
  (np : Numpy) (gensim : Gensim np) (sklearn : Sklearn np) (elapsed : stage -> Z)
  (data_file test_file : string) (fasttext_epochs : nat) (t0 : Clock) :
  exists frames,
    load_both spark data_file test_file = Return frames /\
    main py spark np gensim sklearn elapsed data_file test_file fasttext_epochs t0 =
      match train_fasttext py np gensim sklearn elapsed (fst frames) (snd frames)
              fasttext_epochs t0 with
      | (Return (ft_metrics, ft_time), t1) =>
          (Return {| Model := ["FastText"];
                     Accuracy := [accuracy ft_metrics];
                     Precision := [precision ft_metrics];
                     Recall := [recall ft_metrics];
                     F1 := [f1 ft_metrics];
                     Training_Time := [ft_time] |}, t1)
      | (Raise e, t1) => (Raise e, t1)
      end.
Proof.
  destruct (load_both_returns spark data_file test_file) as [frames Hframes].
  exists frames. split; [exact Hframes|].
  unfold main, bind_run, lift. rewrite Hframes.
  destruct (train_fasttext py np gensim sklearn elapsed (fst frames) (snd frames)
              fasttext_epochs t0) as [[[m time]|e] t1]; reflexivity.
Qed.

(** A training file of one class: the fit refuses it, and [main] raises. *)
Example one_class_training_aborts_main :
  main Sample.python Sample.spark Sample.numpy Sample.gensim Sample.sklearn Sample.elapsed
    "duplicates.tsv" "qqp.tsv" 3 1000%Z = (Raise ValueError, 1005%Z).
Proof. vm_compute. reflexivity. Qed.

(** C3 as stated fails: the training file is fine, the test file yields no
    record with a label, so the prediction is asked for an empty feature set
    and raises [ValueError]; [main] raises it too, and returns no table. *)
Lemma failed_variant_aborts_main :
  main Sample.python Sample.spark Sample.numpy Sample.gensim Sample.sklearn Sample.elapsed
    "qqp.tsv" "nolabel.tsv" 3 1000%Z = (Raise ValueError, 1010%Z) /\
  (forall results t1,
     main Sample.python Sample.spark Sample.numpy Sample.gensim Sample.sklearn Sample.elapsed
       "qqp.tsv" "nolabel.tsv" 3 1000%Z <> (Return results, t1)).
Proof.
  assert (H : main Sample.python Sample.spark Sample.numpy Sample.gensim Sample.sklearn
                Sample.elapsed "qqp.tsv" "nolabel.tsv" 3 1000%Z = (Raise ValueError, 1010%Z))
    by (vm_compute; reflexivity).
  split; [exact H|]. intros results t1 H'. rewrite H in H'. discriminate H'.
Qed.

(** * Further properties of the loader *)

Section LoaderShape.
Variable spark : SparkSession.

(** The label step of [load_qqp_data], whichever branch is taken, leaves a
    well-formed frame in which every name other than [label] resolves as in
    the file, to the same cells. *)
Lemma label_step (csv : Csv) (is_test : bool) (df1 : DataFrame) :
  (if negb is_test && in_columns "is_duplicate" (csv_frame csv) then
     data <- withColumn (csv_frame csv) "label" (cast_double spark (col "is_duplicate")) ;;
     data <- filter data (isNotNull (col "label")) ;;
     filter data (cond_or (eq_lit spark (col "label") double_0)
                          (eq_lit spark (col "label") double_1))
   else if is_test then withColumn (csv_frame csv) "label" (lit double_0)
   else Return (csv_frame csv)) = Return df1 ->
  well_formed df1 /\
  (forall name', resolver name' "label" = false ->
     resolve (columns df1) name' = resolve (header csv) name') /\
  exists (g : Row -> Row) (kept : list Row),
    rows df1 = map g kept /\
    (forall r, In r kept -> In r (rows (csv_frame csv))) /\
    (forall r name' k, In r kept -> resolver name' "label" = false ->
       resolve (header csv) name' = Return k -> nth k (g r) None = nth k r None).
Proof.
  intros H. pose proof (csv_frame_well_formed csv) as Hwf0.
  assert (Hlen : forall r, In r (rows (csv_frame csv)) ->
                   List.length r = List.length (columns (csv_frame csv))).
  { unfold well_formed in Hwf0. rewrite Forall_forall in Hwf0. exact Hwf0. }
  destruct (negb is_test && in_columns "is_duplicate" (csv_frame csv)).
  - destruct (label_and_filters spark _ _ Hwf0 H)
      as (i & jl & g & _ & _ & Hwf1 & Hother & Hrows & Hg).
    split; [exact Hwf1|]. split; [exact Hother|].
    exists g. eexists. split; [exact Hrows|]. split.
    + intros r Hr. apply filter_In in Hr. tauto.
    + intros r name' k Hr Hne Hk. apply filter_In in Hr. destruct Hr as [Hr _].
      exact (proj2 (Hg r (Hlen r Hr)) name' k Hne Hk).
  - destruct is_test.
    + destruct (withColumn_spec _ _ _ _ Hwf0 H)
        as (f & g & _ & Hrows & Hwf1 & Hother & _ & Hkeep & _).
      split; [exact Hwf1|]. split; [exact Hother|].
      exists g, (rows (csv_frame csv)). split; [exact Hrows|]. split; [tauto|].
      intros r name' k Hr Hne Hk. exact (Hkeep name' k r Hne Hk (Hlen r Hr)).
    + injection H as <-. split; [exact Hwf0|]. split; [reflexivity|].
      exists (fun r => r), (rows (csv_frame csv)). split; [symmetry; apply map_id|].
      split; [tauto | reflexivity].
Qed.

(** What a frame that [load_frame] returns looks like. *)
Lemma load_frame_records (file_path : string) (is_test : bool) (data : DataFrame) :
  load_frame spark file_path is_test = Return data ->
  columns data = ["text"; "label"] /\
  Forall (fun r : Row => exists s l, r = [Some (VString s); l]) (rows data).
Proof.
  intros Hframe. unfold load_frame in Hframe. bind_inv Hframe. rename a into csv.
  bind_inv Hframe. rename a into df1, Ha0 into Hdf1.
  destruct (label_step csv is_test df1 Hdf1) as (Hwf1 & _).
  destruct (text_and_projection spark _ _ Hwf1 Hframe)
    as (i1 & i2 & jl & _ & _ & _ & Hcols & Hrows).
  split; [exact Hcols|]. rewrite Hrows. apply Forall_forall. intros x Hx.
  apply in_map_iff in Hx. destruct Hx as (r & <- & _). unfold joined_text. eauto.
Qed.

End LoaderShape.

(** X1.  [load_qqp_data] returns for every session, path and kind of load: it
    never raises, and the frame it returns has exactly the columns [text] and
    [label] and at least one record. *)
Theorem load_qqp_data_never_empty (spark : SparkSession) (file_path : string)
  (is_test : bool) :
  exists data,
    load_qqp_data spark file_path is_test = Return data /\
    columns data = ["text"; "label"] /\
    count data <> 0.
Proof.
  unfold load_qqp_data, try_except.
  destruct (load_try spark file_path is_test) as [data|e] eqn:Htry.
  - exists data. apply load_try_Return in Htry. destruct Htry as (Hframe & Hcount & _).
    split; [reflexivity|]. split; [|exact Hcount].
    exact (proj1 (load_frame_records spark _ _ _ Hframe)).
  - exists sample_frame. repeat split. discriminate.
Qed.

(** X2.  In every frame [load_qqp_data] returns, each record has two cells
    and its text is a string, never NULL (the label may be any cell). *)
Theorem loaded_text_is_never_null (spark : SparkSession) (file_path : string)
  (is_test : bool) (data : DataFrame) :
  load_qqp_data spark file_path is_test = Return data ->
  Forall (fun r : Row => List.length r = 2 /\ exists s, record_text r = Some (VString s))
         (rows data).
Proof.
  unfold load_qqp_data, try_except.
  destruct (load_try spark file_path is_test) as [d|e] eqn:Htry; intros H; injection H as <-.
  - apply load_try_Return in Htry. destruct Htry as (Hframe & _).
    destruct (load_frame_records spark _ _ _ Hframe) as [_ Hrows].
    eapply Forall_impl; [|exact Hrows]. intros r (s & l & ->). split; [reflexivity|].
    exists s. reflexivity.
  - repeat constructor; eexists; reflexivity.
Qed.

Lemma loaded_text_is_never_null_witness :
  exists data,
    load_qqp_data Sample.spark "label.tsv" false = Return data /\
    Forall (fun r : Row => List.length r = 2 /\ exists s, record_text r = Some (VString s))
           (rows data).
Proof.
  eexists. split; [reflexivity|].
  apply (loaded_text_is_never_null Sample.spark "label.tsv" false). reflexivity.
Defined.

Section LoaderRows.
Variable spark : SparkSession.

(** The records of a load that did not fall back, row by row: the text is
    built from the two question cells of the line, the label is the label
    cell of the frame after the label step. *)
Lemma load_frame_rows (file_path : string) (is_test : bool) (csv : Csv)
  (data : DataFrame) :
  read_csv spark file_path = Return csv ->
  load_frame spark file_path is_test = Return data ->
  exists i1 i2 (kept : list Row) (label : Row -> cell),
    resolve (header csv) "question1" = Return i1 /\
    resolve (header csv) "question2" = Return i2 /\
    (forall r, In r kept -> In r (rows (csv_frame csv))) /\
    rows data =
      map (fun r => [joined_text spark (nth i1 r None) (nth i2 r None); label r]) kept.
Proof.
  intros Hread Hframe. unfold load_frame in Hframe. rewrite Hread in Hframe.
  cbn [bind] in Hframe. bind_inv Hframe. rename a into df1, Ha into Hdf1.
  destruct (label_step spark csv is_test df1 Hdf1)
    as (Hwf1 & Hother & g & kept & Hrows1 & Hkept & Hg).
  destruct (text_and_projection spark _ _ Hwf1 Hframe)
    as (i1 & i2 & jl & Hq1 & Hq2 & _ & _ & Hrows).
  rewrite (Hother "question1" eq_refl) in Hq1.
  rewrite (Hother "question2" eq_refl) in Hq2.
  exists i1, i2, kept, (fun r => nth jl (g r) None).
  split; [exact Hq1|]. split; [exact Hq2|]. split; [exact Hkept|].
  rewrite Hrows, Hrows1, map_map. apply map_ext_in. intros r Hr.
  rewrite (Hg r "question1" i1 Hr eq_refl Hq1), (Hg r "question2" i2 Hr eq_refl Hq2).
  reflexivity.
Qed.

(** The rows of a test-set load that did not fall back. *)
Lemma test_load_rows (file_path : string) (csv : Csv) (data : DataFrame) :
  read_csv spark file_path = Return csv ->
  load_frame spark file_path true = Return data ->
  exists i1 i2,
    resolve (header csv) "question1" = Return i1 /\
    resolve (header csv) "question2" = Return i2 /\
    rows data =
      map (fun r => [joined_text spark (nth i1 r None) (nth i2 r None);
                     Some (VDouble double_0)])
          (rows (csv_frame csv)).
Proof.
  intros Hread Hframe. unfold load_frame in Hframe. rewrite Hread in Hframe.
  cbn [bind negb andb] in Hframe. bind_inv Hframe. rename a into df1, Ha into Hdf1.
  pose proof (csv_frame_well_formed csv) as Hwf0.
  destruct (withColumn_spec _ _ _ _ Hwf0 Hdf1)
    as (f & g & Hf & Hrows1 & Hwf1 & Hother & Hval & Hkeep & _).
  unfold lit in Hf. injection Hf as <-.
  destruct (text_and_projection spark _ _ Hwf1 Hframe)
    as (i1 & i2 & jl & Hq1 & Hq2 & Hjl & _ & Hrows).
  exists i1, i2.
  rewrite (Hother "question1" eq_refl) in Hq1.
  rewrite (Hother "question2" eq_refl) in Hq2.
  split; [exact Hq1|]. split; [exact Hq2|].
  rewrite Hrows, Hrows1, map_map. apply map_ext_in. intros r Hr.
  unfold well_formed in Hwf0. rewrite Forall_forall in Hwf0.
  rewrite (Hkeep "question1" i1 r eq_refl Hq1 (Hwf0 r Hr)),
          (Hkeep "question2" i2 r eq_refl Hq2 (Hwf0 r Hr)),
          (Hval jl r Hjl (Hwf0 r Hr)).
  reflexivity.
Qed.

End LoaderRows.

(** X3.  A test-set load that does not fall back keeps every line of the
    file, in the file's order: one record per line, its text joined from the
    line's two question cells, its label 0.0. *)
Theorem test_load_keeps_every_line (spark : SparkSession) (file_path : string)
  (csv : Csv) (data : DataFrame) :
  read_csv spark file_path = Return csv ->
  load_try spark file_path true = Return data ->
  count data = List.length (records csv) /\
  exists i1 i2,
    resolve (header csv) "question1" = Return i1 /\
    resolve (header csv) "question2" = Return i2 /\
    rows data =
      map (fun r => [joined_text spark (nth i1 r None) (nth i2 r None);
                     Some (VDouble double_0)])
          (rows (csv_frame csv)).
Proof.
  intros Hread Htry. apply load_try_Return in Htry. destruct Htry as (Hframe & _).
  destruct (test_load_rows spark _ _ _ Hread Hframe) as (i1 & i2 & H1 & H2 & Hrows).
  split; [|eauto]. unfold count. rewrite Hrows. simpl. rewrite !length_map. reflexivity.
Qed.

Lemma test_load_keeps_every_line_witness :
  exists data,
    load_qqp_data Sample.spark "qqp.tsv" true = Return data /\
    count data = 5.
Proof.
  eexists. split; [reflexivity|].
  exact (proj1 (test_load_keeps_every_line Sample.spark "qqp.tsv" Sample.qqp_tsv _
                  eq_refl eq_refl)).
Defined.

(** X4.  A training-set load of a file with an [is_duplicate] column that
    does not fall back returns the lines whose [is_duplicate] casts to 0.0 or
    1.0, in the file's order, each with the text joined from its own two
    question cells; so it never has more records than the file has lines. *)
Theorem training_load_only_drops_lines (spark : SparkSession) (file_path : string)
  (csv : Csv) (data : DataFrame) :
  read_csv spark file_path = Return csv ->
  in_columns "is_duplicate" (csv_frame csv) = true ->
  load_try spark file_path false = Return data ->
  count data <= List.length (records csv) /\
  exists i i1 i2,
    resolve (header csv) "is_duplicate" = Return i /\
    resolve (header csv) "question1" = Return i1 /\
    resolve (header csv) "question2" = Return i2 /\
    rows data =
      map (fun r => [joined_text spark (nth i1 r None) (nth i2 r None);
                     cast_cell spark (nth i r None)])
          (List.filter (fun r => keeps_label (cast_cell spark (nth i r None)))
                       (rows (csv_frame csv))).
Proof.
  intros Hread Hcol Htry. apply load_try_Return in Htry. destruct Htry as (Hframe & _).
  unfold load_frame in Hframe. rewrite Hread in Hframe. cbn [bind] in Hframe.
  rewrite Hcol in Hframe. cbn [negb andb] in Hframe.
  bind_inv Hframe. rename a into df1, Ha into Hdf1.
  pose proof (csv_frame_well_formed csv) as Hwf0.
  destruct (label_and_filters spark _ _ Hwf0 Hdf1)
    as (i & jl & g & Hi & Hjl & Hwf1 & Hother & Hrows1 & Hg).
  destruct (text_and_projection spark _ _ Hwf1 Hframe)
    as (i1 & i2 & jl' & Hq1 & Hq2 & Hjl' & _ & Hrows).
  rewrite Hjl in Hjl'. injection Hjl' as <-.
  rewrite (Hother "question1" eq_refl) in Hq1.
  rewrite (Hother "question2" eq_refl) in Hq2.
  assert (Heq : rows data =
      map (fun r => [joined_text spark (nth i1 r None) (nth i2 r None);
                     cast_cell spark (nth i r None)])
          (List.filter (fun r => keeps_label (cast_cell spark (nth i r None)))
                       (rows (csv_frame csv)))).
  { rewrite Hrows, Hrows1, map_map. apply map_ext_in. intros r Hr.
    apply filter_In in Hr. destruct Hr as [Hr _].
    unfold well_formed in Hwf0. rewrite Forall_forall in Hwf0.
    destruct (Hg r (Hwf0 r Hr)) as [-> Hsame].
    rewrite (Hsame "question1" i1 eq_refl Hq1), (Hsame "question2" i2 eq_refl Hq2).
    reflexivity. }
  split.
  - unfold count. rewrite Heq, length_map.
    etransitivity; [apply filter_length_le|]. simpl. rewrite length_map. reflexivity.
  - exists i, i1, i2. repeat split; assumption.
Qed.

Lemma training_load_only_drops_lines_witness :
  exists data,
    load_qqp_data Sample.spark "qqp.tsv" false = Return data /\
    count data <= 5.
Proof.
  eexists. split; [reflexivity|].
  exact (proj1 (training_load_only_drops_lines Sample.spark "qqp.tsv" Sample.qqp_tsv _
                  eq_refl eq_refl eq_refl)).
Defined.

(** X5.  In a test-set load that does not fall back, a line whose second
    question is missing yields the first question alone as text, with no
    separator, and a line with no question at all is kept with the empty
    text. *)
Theorem missing_question_is_skipped (spark : SparkSession) (file_path : string)
  (csv : Csv) (data : DataFrame) (i1 i2 : nat) (raw : list (option string)) :
  read_csv spark file_path = Return csv ->
  load_try spark file_path true = Return data ->
  resolve (header csv) "question1" = Return i1 ->
  resolve (header csv) "question2" = Return i2 ->
  In raw (records csv) ->
  nth i2 raw None = None ->
  (forall q1, nth i1 raw None = Some q1 ->
     In [Some (VString q1); Some (VDouble double_0)] (rows data)) /\
  (nth i1 raw None = None ->
     In [Some (VString EmptyString); Some (VDouble double_0)] (rows data)).
Proof.
  intros Hread Htry Hq1 Hq2 Hraw Hnone.
  apply load_try_Return in Htry. destruct Htry as (Hframe & _).
  destruct (test_load_rows spark _ _ _ Hread Hframe) as (j1 & j2 & H1 & H2 & Hrows).
  rewrite Hq1 in H1. injection H1 as <-. rewrite Hq2 in H2. injection H2 as <-.
  apply resolve_Return in Hq1, Hq2.
  assert (Hin : In (csv_row (List.length (header csv)) raw) (rows (csv_frame csv))).
  { simpl. apply in_map. exact Hraw. }
  split.
  - intros q1 Hsome. rewrite Hrows. apply in_map_iff.
    exists (csv_row (List.length (header csv)) raw). split; [|exact Hin].
    rewrite !csv_row_nth by tauto. rewrite Hsome, Hnone. reflexivity.
  - intros Hnone1. rewrite Hrows. apply in_map_iff.
    exists (csv_row (List.length (header csv)) raw). split; [|exact Hin].
    rewrite !csv_row_nth by tauto. rewrite Hnone1, Hnone. reflexivity.
Qed.

Lemma missing_question_is_skipped_witness :
  exists data,
    load_qqp_data SampleLines.spark "gaps.tsv" true = Return data /\
    In [Some (VString "Why?"); Some (VDouble double_0)] (rows data).
Proof.
  eexists. split; [reflexivity|].
  refine (proj1 (missing_question_is_skipped SampleLines.spark "gaps.tsv"
                   SampleLines.gaps_tsv _ 1 2 [Some "2"; Some "Why?"; None]
                   eq_refl eq_refl eq_refl eq_refl _ eq_refl) "Why?" eq_refl).
  simpl. tauto.
Defined.

(** A line with no question is kept, with the empty text. *)
Example line_without_questions_is_kept :
  load_qqp_data SampleLines.spark "gaps.tsv" true =
  Return {| columns := ["text"; "label"];
            rows := [ [Some (VString "Is it far? [SEP] How far is it?"); Some (VDouble double_0)];
                      [Some (VString "Why?"); Some (VDouble double_0)];
                      [Some (VString EmptyString); Some (VDouble double_0)] ] |}.
Proof. reflexivity. Qed.

(** X6.  When the file has no column that [question1] names, or none that
    [question2] names, the load returns the built-in frame, whatever the kind
    of load and whatever labels the file has. *)
Theorem missing_question_column_falls_back (spark : SparkSession) (file_path : string)
  (is_test : bool) (csv : Csv) :
  read_csv spark file_path = Return csv ->
  names_column "question1" (header csv) = false \/
  names_column "question2" (header csv) = false ->
  load_qqp_data spark file_path is_test = Return sample_frame.
Proof.
  intros Hread Hmissing. unfold load_qqp_data, load_try.
  destruct (load_frame spark file_path is_test) as [data|e] eqn:Hframe; [|reflexivity].
  exfalso.
  destruct (load_frame_rows spark _ _ _ _ Hread Hframe)
    as (i1 & i2 & kept & label & Hq1 & Hq2 & _).
  destruct Hmissing as [H|H]; apply resolve_absent in H; congruence.
Qed.

Lemma missing_question_column_falls_back_witness :
  load_qqp_data SampleLines.spark "one_question.tsv" false = Return sample_frame.
Proof.
  apply (missing_question_column_falls_back SampleLines.spark "one_question.tsv" false
           SampleLines.one_question_tsv); [reflexivity | right; reflexivity].
Defined.

(** ** The frames main trains on *)

Lemma filter_nil_all_false {A} (p : A -> bool) (l : list A) :
  List.filter p l = [] -> Forall (fun x => p x = false) l.
Proof.
  induction l as [|x l IH]; simpl; intros H; [constructor|].
  destruct (p x) eqn:E; [discriminate|]. constructor; auto.
Qed.

(** X7.  The two frames [main] hands to the model have the columns [text] and
    [label] and no NULL label: when either loaded frame has one, the rows with
    a NULL label are removed from both. *)
Theorem load_both_leaves_no_null_label (spark : SparkSession)
  (data_file test_file : string) (train_data test_data : DataFrame) :
  load_both spark data_file test_file = Return (train_data, test_data) ->
  (columns train_data = ["text"; "label"] /\
   Forall (fun r => record_label r <> None) (rows train_data)) /\
  (columns test_data = ["text"; "label"] /\
   Forall (fun r => record_label r <> None) (rows test_data)).
Proof.
  unfold load_both.
  destruct (load_qqp_data_returns spark data_file false) as (train & -> & Htrain).
  destruct (load_qqp_data_returns spark test_file false) as (test & -> & Htest).
  cbn [bind]. unfold filter, isNull, isNotNull, col.
  rewrite Htrain, Htest, resolve_label_of_records. cbn [bind count rows].
  match goal with |- context [if ?b then _ else _] => destruct b eqn:Hb end;
    intros H; injection H as <- <-; cbn [columns rows].
  - split; (split; [first [assumption | reflexivity]|]); apply Forall_forall; intros r Hr;
      apply filter_In in Hr; destruct Hr as [_ Hr]; unfold record_label;
      destruct (nth 1 r None); first [discriminate | discriminate Hr].
  - apply orb_false_iff in Hb. destruct Hb as [H1 H2].
    apply Nat.ltb_ge in H1, H2. unfold count in H1, H2. cbn [rows] in H1, H2.
    split; (split; [first [assumption | reflexivity]|]).
    + match type of H1 with
      | _ ?l <= 0 => assert (E : l = []) by (apply length_zero_iff_nil; lia)
      end.
      apply filter_nil_all_false in E. eapply Forall_impl; [|exact E].
      intros r Hr. cbv beta in Hr. unfold record_label.
      destruct (nth 1 r None); [discriminate | discriminate Hr].
    + match type of H2 with
      | _ ?l <= 0 => assert (E : l = []) by (apply length_zero_iff_nil; lia)
      end.
      apply filter_nil_all_false in E. eapply Forall_impl; [|exact E].
      intros r Hr. cbv beta in Hr. unfold record_label.
      destruct (nth 1 r None); [discriminate | discriminate Hr].
Qed.

Lemma load_both_leaves_no_null_label_witness :
  exists train_data test_data,
    load_both Sample.spark "qqp.tsv" "nolabel.tsv" = Return (train_data, test_data) /\
    Forall (fun r => record_label r <> None) (rows train_data) /\
    count train_data = 2 /\ count test_data = 0.
Proof.
  do 2 eexists. split; [reflexivity|]. split; [|split; reflexivity].
  exact (proj2 (proj1 (load_both_leaves_no_null_label Sample.spark "qqp.tsv"
                         "nolabel.tsv" _ _ eq_refl))).
Defined.

(** * Further properties of the tokens *)

Lemma chars_append (s1 s2 : string) :
  list_ascii_of_string (String.append s1 s2) =
  list_ascii_of_string s1 ++ list_ascii_of_string s2.
Proof. induction s1 as [|c s1 IH]; simpl; [reflexivity | rewrite IH; reflexivity]. Qed.

Lemma append_empty (s : string) : String.append s EmptyString = s.
Proof. induction s as [|c s IH]; simpl; [reflexivity | rewrite IH; reflexivity]. Qed.

Lemma append_assoc (s1 s2 s3 : string) :
  String.append (String.append s1 s2) s3 = String.append s1 (String.append s2 s3).
Proof. induction s1 as [|c s1 IH]; simpl; [reflexivity | rewrite IH; reflexivity]. Qed.

Lemma lower_ascii_idempotent (c : ascii) : lower_ascii (lower_ascii c) = lower_ascii c.
Proof. destruct c as [[] [] [] [] [] [] [] []]; reflexivity. Qed.

Lemma chars_lower (s : string) :
  list_ascii_of_string (lower s) = map lower_ascii (list_ascii_of_string s).
Proof. induction s as [|c s IH]; simpl; [reflexivity | rewrite IH; reflexivity]. Qed.

Lemma lower_fixed (s : string) :
  Forall (fun c => lower_ascii c = c) (list_ascii_of_string s) -> lower s = s.
Proof.
  induction s as [|c s IH]; simpl; intros H; [reflexivity|].
  inversion H as [|? ? Hc Hs]; subst. rewrite Hc, (IH Hs). reflexivity.
Qed.

Lemma flush_chars (P : ascii -> Prop) (cur : string) :
  Forall P (list_ascii_of_string cur) ->
  Forall (fun w => w <> EmptyString /\ Forall P (list_ascii_of_string w)) (flush cur).
Proof.
  intros H. destruct cur as [|c cur]; simpl; [constructor|].
  constructor; [split; [discriminate | exact H] | constructor].
Qed.

(** Whatever holds of the characters of the text that are not white space
    holds of the characters of its tokens, and no token is empty. *)
Lemma split_from_chars (P : ascii -> Prop) (s : string) :
  forall cur,
    Forall P (list_ascii_of_string cur) ->
    Forall (fun c => is_space c = false -> P c) (list_ascii_of_string s) ->
    Forall (fun w => w <> EmptyString /\ Forall P (list_ascii_of_string w))
           (split_from cur s).
Proof.
  induction s as [|c s IH]; simpl; intros cur Hcur Hs.
  - apply flush_chars. exact Hcur.
  - inversion Hs as [|? ? Hc Hs']; subst. destruct (is_space c) eqn:E.
    + apply Forall_app. split; [apply flush_chars; exact Hcur|].
      apply IH; [constructor | exact Hs'].
    + apply IH; [|exact Hs']. rewrite chars_append. apply Forall_app.
      split; [exact Hcur|]. simpl. repeat constructor. apply Hc. reflexivity.
Qed.

Lemma lower_ascii_below (c : ascii) :
  (nat_of_ascii c <? 128) = true -> (nat_of_ascii (lower_ascii c) <? 128) = true.
Proof. destruct c as [[] [] [] [] [] [] [] []]; intros H; solve [reflexivity | discriminate H]. Qed.

Lemma ascii_text_lower (s : string) : ascii_text s = true -> ascii_text (lower s) = true.
Proof.
  unfold ascii_text. induction s as [|c s IH]; simpl; intros H; [reflexivity|].
  apply andb_true_iff in H. destruct H as [Hc Hs].
  rewrite (lower_ascii_below c Hc), (IH Hs). reflexivity.
Qed.

Lemma token_char_intro (c : ascii) :
  (nat_of_ascii c <? 128) = true -> is_space c = false -> lower_ascii c = c ->
  token_char c = true.
Proof.
  destruct c as [[] [] [] [] [] [] [] []]; intros H1 H2 H3;
    solve [reflexivity | discriminate H1 | discriminate H2 | discriminate H3].
Qed.

Lemma token_char_elim (c : ascii) :
  token_char c = true ->
  (nat_of_ascii c <? 128) = true /\ is_space c = false /\ lower_ascii c = c.
Proof.
  destruct c as [[] [] [] [] [] [] [] []]; intros H;
    solve [repeat split; reflexivity | discriminate H].
Qed.

(** With an interpreter that treats ASCII text as Python does, the tokens of
    an ASCII text are those of [split] and [lower]. *)
Lemma preprocess_text_ascii (py : Python) (text : cell) :
  ascii_as_python py -> ascii_cell text = true ->
  preprocess_text py text =
  match text with
  | Some (VString s) => split (lower s)
  | _ => []
  end.
Proof.
  intros Hpy Htext. destruct text as [[s|d]|]; try reflexivity.
  cbn [preprocess_text ascii_cell] in *.
  destruct (Hpy s Htext) as [-> _].
  destruct (Hpy (lower s) (ascii_text_lower s Htext)) as [_ ->]. reflexivity.
Qed.

(** A token of an ASCII text: not empty, and made of token characters. *)
Lemma split_lower_tokens (s : string) :
  ascii_text s = true ->
  Forall (fun w => w <> EmptyString /\
                   Forall (fun c => token_char c = true) (list_ascii_of_string w))
         (split (lower s)).
Proof.
  intros Hs. apply split_from_chars; [constructor|].
  apply ascii_text_lower in Hs. unfold ascii_text in Hs.
  rewrite forallb_forall in Hs.
  apply Forall_forall. intros c Hc Hsp.
  apply token_char_intro; [apply Hs; exact Hc | exact Hsp |].
  rewrite chars_lower in Hc. apply in_map_iff in Hc. destruct Hc as (c' & <- & _).
  apply lower_ascii_idempotent.
Qed.

Lemma preprocess_text_tokens_ok (py : Python) (text : cell) :
  ascii_as_python py -> ascii_cell text = true ->
  Forall (fun w => w <> EmptyString /\
                   Forall (fun c => token_char c = true) (list_ascii_of_string w))
         (preprocess_text py text).
Proof.
  intros Hpy Htext. rewrite (preprocess_text_ascii py text Hpy Htext).
  destruct text as [[s|d]|]; try constructor.
  apply split_lower_tokens. exact Htext.
Qed.

(** X8.  On an ASCII text, read by an interpreter whose [lower] and [split]
    are Python's on such text, every token [preprocess_text] yields is
    non-empty and made of ASCII characters that are neither white space
    (codes 9 to 13 and 28 to 32) nor upper-case letters (codes 65 to 90); a
    value that is not a string has no token. *)
Theorem preprocess_text_tokens (py : Python) (s : string) :
  ascii_as_python py ->
  ascii_text s = true ->
  Forall (fun w => w <> EmptyString /\ forallb token_char (list_ascii_of_string w) = true)
         (preprocess_text py (Some (VString s))) /\
  (forall d, preprocess_text py (Some (VDouble d)) = []) /\
  preprocess_text py None = [].
Proof.
  intros Hpy Hs. split; [|split; reflexivity].
  eapply Forall_impl; [|exact (preprocess_text_tokens_ok py (Some (VString s)) Hpy Hs)].
  intros w [Hne Hw]. split; [exact Hne|].
  apply forallb_forall. rewrite Forall_forall in Hw. exact Hw.
Qed.

Lemma preprocess_text_tokens_witness :
  preprocess_text Sample.python (Some (VString "How  FAR is it?")) =
    ["how"; "far"; "is"; "it?"] /\
  Forall (fun w => w <> EmptyString /\ forallb token_char (list_ascii_of_string w) = true)
         ["how"; "far"; "is"; "it?"].
Proof.
  split; [reflexivity|].
  exact (proj1 (preprocess_text_tokens Sample.python "How  FAR is it?"
                  (fun s _ => conj eq_refl eq_refl) eq_refl)).
Defined.

Lemma split_from_word (w : string) :
  Forall (fun c => is_space c = false) (list_ascii_of_string w) ->
  forall cur s, split_from cur (String.append w s) = split_from (String.append cur w) s.
Proof.
  induction w as [|c w IH]; simpl; intros H cur s.
  - rewrite append_empty. reflexivity.
  - inversion H as [|? ? Hc Hw]; subst. rewrite Hc, (IH Hw).
    rewrite append_assoc. reflexivity.
Qed.

Lemma flush_word (w : string) : w <> EmptyString -> flush w = [w].
Proof. destruct w; [congruence | reflexivity]. Qed.

(** Splitting the tokens joined by single spaces gives the tokens back. *)
Lemma split_concat (ws : list string) :
  Forall (fun w => w <> EmptyString /\
                   Forall (fun c => is_space c = false) (list_ascii_of_string w)) ws ->
  split (String.concat " " ws) = ws.
Proof.
  unfold split. induction ws as [|w ws IH]; intros H; [reflexivity|].
  inversion H as [|? ? [Hne Hw] Hws]; subst.
  destruct ws as [|w' ws].
  - simpl. rewrite <- (append_empty w) at 1.
    rewrite (split_from_word w Hw). simpl. apply flush_word. exact Hne.
  - change (String.concat " " (w :: w' :: ws))
      with (String.append w (String.append " " (String.concat " " (w' :: ws)))).
    rewrite (split_from_word w Hw). cbn [String.append split_from is_space].
    change (is_space " "%char) with true. cbn iota.
    cbn [String.append]. rewrite (flush_word w Hne), (IH Hws). reflexivity.
Qed.

Lemma concat_chars (P : ascii -> Prop) (sep : string) (ws : list string) :
  Forall P (list_ascii_of_string sep) ->
  Forall (fun w => Forall P (list_ascii_of_string w)) ws ->
  Forall P (list_ascii_of_string (String.concat sep ws)).
Proof.
  intros Hsep. induction ws as [|w ws IH]; intros H; [constructor|].
  inversion H as [|? ? Hw Hws]; subst. destruct ws as [|w' ws]; [exact Hw|].
  change (String.concat sep (w :: w' :: ws))
    with (String.append w (String.append sep (String.concat sep (w' :: ws)))).
  rewrite !chars_append. repeat (apply Forall_app; split); auto.
Qed.

(** X9.  On ASCII text, read by an interpreter whose [lower] and [split] are
    Python's on such text, tokenizing is idempotent on its own output: the
    tokens of a text, joined by single spaces and tokenized again, are the
    same tokens. *)
Theorem preprocess_text_round_trip (py : Python) (text : cell) :
  ascii_as_python py ->
  ascii_cell text = true ->
  preprocess_text py (Some (VString (String.concat " " (preprocess_text py text)))) =
  preprocess_text py text.
Proof.
  intros Hpy Htext.
  pose proof (preprocess_text_tokens_ok py text Hpy Htext) as H.
  assert (Hjoined : Forall (fun c => (nat_of_ascii c <? 128) = true /\ lower_ascii c = c)
                      (list_ascii_of_string (String.concat " " (preprocess_text py text)))).
  { apply concat_chars; [repeat constructor|].
    eapply Forall_impl; [|exact H]. intros w [_ Hw].
    eapply Forall_impl; [|exact Hw]. intros c Hc.
    apply token_char_elim in Hc. tauto. }
  rewrite (preprocess_text_ascii py (Some (VString _)) Hpy).
  - rewrite lower_fixed.
    + apply split_concat. eapply Forall_impl; [|exact H].
      intros w [Hne Hw]. split; [exact Hne|].
      eapply Forall_impl; [|exact Hw]. intros c Hc.
      apply token_char_elim in Hc. tauto.
    + eapply Forall_impl; [|exact Hjoined]. intros c [_ Hc]. exact Hc.
  - cbn [ascii_cell]. unfold ascii_text. apply forallb_forall.
    rewrite Forall_forall in Hjoined. intros c Hc. apply (Hjoined c Hc).
Qed.

Lemma preprocess_text_round_trip_witness :
  preprocess_text Sample.python (Some (VString "How  FAR is it?")) =
    ["how"; "far"; "is"; "it?"] /\
  preprocess_text Sample.python (Some (VString "how far is it?")) =
    ["how"; "far"; "is"; "it?"].
Proof.
  split; [reflexivity|].
  exact (preprocess_text_round_trip Sample.python (Some (VString "How  FAR is it?"))
           (fun s _ => conj eq_refl eq_refl) eq_refl).
Defined.

(** * Further properties of the FastText run *)

Lemma mapM_length {A B} (f : A -> py_result B) (l : list A) (l' : list B) :
  mapM f l = Return l' -> List.length l' = List.length l.
Proof.
  revert l'. induction l as [|x l IH]; simpl; intros l' H.
  - injection H as <-. reflexivity.
  - bind_inv H. bind_inv H. injection H as <-. simpl. rewrite (IH _ eq_refl). reflexivity.
Qed.

Lemma getitem_length (df : DataFrame) (name : string) (l : list cell) :
  getitem df name = Return l -> List.length l = List.length (rows df).
Proof.
  unfold getitem. destruct (indices_from 0 name (columns df)); [discriminate|].
  intros H. injection H as <-. apply length_map.
Qed.

Lemma getitem_missing (df : DataFrame) (name : string) :
  ~ In name (columns df) -> getitem df name = Raise KeyError.
Proof.
  intros H. unfold getitem. rewrite (indices_from_absent _ _ 0 H). reflexivity.
Qed.

Lemma dropna_idempotent (df : DataFrame) : dropna (dropna df) = dropna df.
Proof.
  unfold dropna. simpl. f_equal. rewrite filter_twice. apply filter_ext.
  intros r. apply andb_diag.
Qed.

Section RunShape.
Variable py : Python.
Variable np : Numpy.
Variable gensim : Gensim np.
Variable sklearn : Sklearn np.
Variable elapsed : stage -> Z.

(** The locals of a run that reached the fitted classifier. *)
Lemma fit_classifier_locals (train_data test_data : DataFrame) (epochs : nat)
  (t0 t1 : Clock) (f : Fitted np gensim sklearn) :
  fit_classifier py np gensim sklearn elapsed train_data test_data epochs t0 = (Return f, t1) ->
  exists train_text train_label test_text,
    getitem (dropna train_data) "text" = Return train_text /\
    List.length train_label = List.length (rows (dropna train_data)) /\
    getitem (dropna test_data) "text" = Return test_text /\
    List.length (y_test f) = List.length (rows (dropna test_data)) /\
    X_test f = map (fun text => text_to_vector py np gensim text (fasttext_model f)) test_text /\
    fit sklearn 100
        (map (fun text => text_to_vector py np gensim text (fasttext_model f)) train_text)
        train_label = Return (fasttext_clf f).
Proof.
  unfold fit_classifier, toPandas. intros H.
  apply bind_during in H. destruct H as (frames & Hframes & H).
  injection Hframes as <-.
  apply bind_during in H. destruct H as (cleaned & Hcleaned & H).
  cbn [fst snd] in Hcleaned.
  bind_inv Hcleaned. rename a into train_label, Ha into Htrain_label.
  bind_inv Hcleaned. rename a into test_label, Ha into Htest_label.
  injection Hcleaned as <-.
  bind_inv Htrain_label. apply mapM_length in Htrain_label.
  apply getitem_length in Ha.
  bind_inv Htest_label. apply mapM_length in Htest_label.
  apply getitem_length in Ha0.
  apply bind_during in H. destruct H as (model & Hmodel & H).
  apply bind_during in H. destruct H as (arrays & Harrays & H).
  bind_inv Harrays. rename a1 into train_text, Ha1 into Htrain_text.
  bind_inv Harrays. rename a1 into test_text, Ha1 into Htest_text.
  injection Harrays as <-.
  apply bind_during in H. destruct H as (clf & Hclf & H).
  unfold unit_run in H. injection H as <- <-. cbn [fasttext_model fasttext_clf X_test y_test].
  exists train_text, train_label, test_text.
  repeat split; try reflexivity; try congruence; exact Hclf.
Qed.

Lemma text_to_vector_length (model : FastTextModel gensim) (text : cell) :
  (forall w, List.length (wv_getitem gensim model w) = vector_size gensim model) ->
  List.length (text_to_vector py np gensim text model) = vector_size gensim model.
Proof.
  intros Hdim. unfold text_to_vector.
  destruct (List.filter (wv_contains gensim model) (preprocess_text py text)) as [|w ws].
  - apply np_zeros_length.
  - cbn [map List.length Nat.eqb np_mean_axis0]. rewrite length_map.
    apply (sum_axis0 np (vector_size gensim model) (s_zero np)); [apply Hdim|].
    apply Forall_forall. intros x Hx. apply in_map_iff in Hx.
    destruct Hx as (w' & <- & _). apply Hdim.
Qed.

End RunShape.

(** X10.  In a run that reaches the fitted classifier, the arrays are
    aligned: the classifier was fitted on one vector and one label per row of
    the training frame without missing values, and the test features and
    test labels have one entry each per such row of the test frame. *)
Theorem fitted_arrays_are_aligned (py : Python) (np : Numpy)
  (gensim : Gensim np) (sklearn : Sklearn np) (elapsed : stage -> Z)
  (train_data test_data : DataFrame) (epochs : nat)
  (t0 t1 : Clock) (f : Fitted np gensim sklearn) :
  fit_classifier py np gensim sklearn elapsed train_data test_data epochs t0 = (Return f, t1) ->
  (List.length (X_test f) = List.length (rows (dropna test_data)) /\
   List.length (y_test f) = List.length (rows (dropna test_data))) /\
  exists X_train y_train,
    List.length X_train = List.length (rows (dropna train_data)) /\
    List.length y_train = List.length (rows (dropna train_data)) /\
    fit sklearn 100 X_train y_train = Return (fasttext_clf f).
Proof.
  intros H. apply fit_classifier_locals in H.
  destruct H as (train_text & train_label & test_text & Htr & Hlab & Hte & Hy & HX & Hfit).
  apply getitem_length in Htr, Hte. split.
  - rewrite HX, length_map. split; [exact Hte | exact Hy].
  - eexists. exists train_label. split; [|split; [exact Hlab | exact Hfit]].
    rewrite length_map. exact Htr.
Qed.

Lemma fitted_arrays_are_aligned_witness :
  exists f,
    fit_classifier Sample.python Sample.numpy Sample.gensim Sample.sklearn Sample.elapsed
      sample_frame Sample.test_frame 3 0%Z = (Return f, 5%Z) /\
    List.length (X_test f) = 1 /\ List.length (y_test f) = 1.
Proof.
  destruct (finished_at_Some
              (fit_classifier Sample.python Sample.numpy Sample.gensim Sample.sklearn Sample.elapsed
                 sample_frame Sample.test_frame 3 0%Z) 5%Z) as [f H];
    [vm_compute; reflexivity|].
  exists f. split; [exact H|].
  exact (proj1 (fitted_arrays_are_aligned _ _ _ _ _ _ _ _ _ _ _ H)).
Defined.

(** X11.  In a run that reaches the fitted classifier with a model whose
    vectors all have the length [vector_size], every test feature vector has
    that length, whatever the text it comes from. *)
Theorem test_features_have_model_dimension (py : Python) (np : Numpy)
  (gensim : Gensim np) (sklearn : Sklearn np) (elapsed : stage -> Z)
  (train_data test_data : DataFrame) (epochs : nat)
  (t0 t1 : Clock) (f : Fitted np gensim sklearn) :
  fit_classifier py np gensim sklearn elapsed train_data test_data epochs t0 = (Return f, t1) ->
  (forall w, List.length (wv_getitem gensim (fasttext_model f) w) =
             vector_size gensim (fasttext_model f)) ->
  Forall (fun v => List.length v = vector_size gensim (fasttext_model f)) (X_test f).
Proof.
  intros H Hdim. apply fit_classifier_locals in H.
  destruct H as (train_text & train_label & test_text & _ & _ & _ & _ & -> & _).
  apply Forall_forall. intros v Hv. apply in_map_iff in Hv.
  destruct Hv as (text & <- & _). apply text_to_vector_length. exact Hdim.
Qed.

Lemma test_features_have_model_dimension_witness :
  exists f,
    fit_classifier Sample.python Sample.numpy Sample.gensim Sample.sklearn Sample.elapsed
      sample_frame Sample.test_frame 3 0%Z = (Return f, 5%Z) /\
    Forall (fun v => List.length v = vector_size Sample.gensim (fasttext_model f)) (X_test f).
Proof.
  destruct (finished_at_Some
              (fit_classifier Sample.python Sample.numpy Sample.gensim Sample.sklearn Sample.elapsed
                 sample_frame Sample.test_frame 3 0%Z) 5%Z) as [f H];
    [vm_compute; reflexivity|].
  exists f. split; [exact H|].
  apply (test_features_have_model_dimension _ _ _ _ _ _ _ _ _ _ _ H).
  intros w. apply repeat_length.
Defined.

(** X12.  A training frame without a column named [label] makes
    [train_fasttext] raise [KeyError] once the frames are collected and
    cleaned, whatever the libraries would have done with the data. *)
Theorem missing_label_column_raises (py : Python) (np : Numpy)
  (gensim : Gensim np) (sklearn : Sklearn np) (elapsed : stage -> Z)
  (train_data test_data : DataFrame) (epochs : nat) (t0 : Clock) :
  ~ In "label" (columns train_data) ->
  train_fasttext py np gensim sklearn elapsed train_data test_data epochs t0 =
    (Raise KeyError, (t0 + elapsed Collecting + elapsed Cleaning)%Z).
Proof.
  intros H. unfold train_fasttext, fit_classifier, bind_run, time_time, during, toPandas.
  cbn [fst snd]. rewrite (getitem_missing (dropna train_data) "label" H). reflexivity.
Qed.

Lemma missing_label_column_raises_witness :
  train_fasttext Sample.python Sample.numpy Sample.gensim Sample.sklearn Sample.elapsed
    (csv_frame Sample.test_tsv) sample_frame 3 1000%Z = (Raise KeyError, 1002%Z).
Proof.
  apply (missing_label_column_raises Sample.python Sample.numpy Sample.gensim Sample.sklearn
           Sample.elapsed (csv_frame Sample.test_tsv) sample_frame 3 1000%Z).
  simpl. intuition discriminate.
Defined.

(** X13.  Rows with a missing value (a NULL cell or a NaN label) play no part
    in a run: what [train_fasttext] returns or raises on two frames is what
    it returns or raises on the two frames with those rows removed, however
    long the blocks of either run take. *)
Theorem rows_with_missing_values_are_ignored (py : Python) (np : Numpy)
  (gensim : Gensim np) (sklearn : Sklearn np) (elapsed elapsed' : stage -> Z)
  (train_data test_data : DataFrame) (epochs : nat) (t0 t0' : Clock) :
  returned_metrics
    (train_fasttext py np gensim sklearn elapsed (dropna train_data) (dropna test_data)
       epochs t0) =
  returned_metrics
    (train_fasttext py np gensim sklearn elapsed' train_data test_data epochs t0').
Proof.
  unfold returned_metrics, train_fasttext, fit_classifier, score_classifier,
    bind_run, during, time_time, unit_run, toPandas.
  cbn [fst snd]. rewrite !dropna_idempotent.
  repeat (cbn [fst snd];
          match goal with
          | |- context [match ?p with pair _ _ => _ end] => is_var p; destruct p as [? ?]
          | |- context [match ?c with Return _ => _ | Raise _ => _ end] =>
              lazymatch c with
              | context [match _ with Return _ => _ | Raise _ => _ end] => fail
              | _ => destruct c as [?|?]
              end
          end);
    reflexivity.
Qed.

(** * text_to_indices and TextDataset *)

Lemma mapM_total {A B} (f : A -> py_result B) (g : A -> B) (l : list A) :
  (forall x, In x l -> f x = Return (g x)) -> mapM f l = Return (map g l).
Proof.
  induction l as [|x l IH]; simpl; intros H; [reflexivity|].
  rewrite (H x (or_introl eq_refl)). cbn [bind]. rewrite IH by auto. reflexivity.
Qed.

Lemma mapM_nth_error {A B} (f : A -> py_result B) (l : list A) (l' : list B) :
  mapM f l = Return l' ->
  forall i x, nth_error l i = Some x ->
    exists y, nth_error l' i = Some y /\ f x = Return y.
Proof.
  revert l'. induction l as [|a l IH]; simpl; intros l' H i x Hi.
  - destruct i; discriminate.
  - bind_inv H. bind_inv H. injection H as <-. destruct i as [|i]; simpl in *.
    + injection Hi as <-. eauto.
    + eapply IH; eauto.
Qed.

Lemma slice_to_length {A} (l : list A) (stop : Z) :
  Z.of_nat (List.length (slice_to l stop)) =
  if (0 <=? stop)%Z then Z.min stop (Z.of_nat (List.length l))
  else Z.max 0 (Z.of_nat (List.length l) + stop).
Proof.
  unfold slice_to. destruct (0 <=? stop)%Z eqn:E; rewrite length_firstn.
  - apply Z.leb_le in E. lia.
  - apply Z.leb_gt in E. lia.
Qed.

Lemma text_to_indices_length_aux (py : Python) (text : cell)
  (word_to_idx : string -> option Z)
  (max_len : Z) (l : list Z) :
  text_to_indices py text word_to_idx max_len = Return l ->
  Z.of_nat (List.length l) =
  if (0 <=? max_len)%Z then max_len
  else Z.max 0 (Z.of_nat (List.length (preprocess_text py text)) + max_len).
Proof.
  unfold text_to_indices, list_times. intros H.
  assert (Hnot : forall n : nat,
            Z.of_nat (List.length (repeat 0%Z (Z.to_nat max_len))) =
            if (0 <=? max_len)%Z then max_len else Z.max 0 (Z.of_nat 0 + max_len)).
  { intros _. rewrite repeat_length. destruct (0 <=? max_len)%Z eqn:E.
    - apply Z.leb_le in E. lia.
    - apply Z.leb_gt in E. lia. }
  destruct text as [[s|d]|]; cbn [preprocess_text List.length];
    try (injection H as <-; apply (Hnot 0)).
  bind_inv H. injection H as <-. apply mapM_length in Ha.
  rewrite length_app, repeat_length, Ha.
  pose proof (slice_to_length (str_split py (str_lower py s)) max_len) as Hs.
  destruct (0 <=? max_len)%Z eqn:E.
  - apply Z.leb_le in E. lia.
  - apply Z.leb_gt in E. lia.
Qed.

(** X14.  When [text_to_indices] returns and [max_len] is not negative, the
    list has exactly [max_len] entries, for any text; with a negative
    [max_len] it has the tokens left after dropping the last [-max_len], and
    no padding. *)
Theorem text_to_indices_length (py : Python) (text : cell)
  (word_to_idx : string -> option Z)
  (max_len : Z) (l : list Z) :
  text_to_indices py text word_to_idx max_len = Return l ->
  Z.of_nat (List.length l) =
  if (0 <=? max_len)%Z then max_len
  else Z.max 0 (Z.of_nat (List.length (preprocess_text py text)) + max_len).
Proof. apply text_to_indices_length_aux. Qed.

Lemma text_to_indices_length_witness :
  text_to_indices Sample.python (Some (VString "How far")) SampleTorch.vocabulary 4 =
    Return [2; 3; 0; 0]%Z /\
  Z.of_nat (List.length [2; 3; 0; 0]%Z) = 4%Z.
Proof.
  split; [reflexivity|].
  exact (text_to_indices_length Sample.python (Some (VString "How far")) SampleTorch.vocabulary
           4 [2; 3; 0; 0]%Z eq_refl).
Defined.

(** More tokens than [max_len]: the rest is cut off. *)
Example text_to_indices_truncates :
  text_to_indices Sample.python (Some (VString "How far away is it")) SampleTorch.vocabulary 3 =
    Return [2; 3; 1]%Z.
Proof. reflexivity. Qed.

(** X15.  With an entry for ["<UNK>"] in the dictionary and a [max_len] that
    is not negative, [text_to_indices] returns, and what it returns is the
    indices of the first [max_len] tokens, an unknown token counting as
    ["<UNK>"], followed by zeros up to [max_len]. *)
Theorem text_to_indices_entries (py : Python) (text : cell)
  (word_to_idx : string -> option Z)
  (max_len unk : Z) :
  word_to_idx "<UNK>" = Some unk ->
  (0 <= max_len)%Z ->
  text_to_indices py text word_to_idx max_len =
    Return (map (fun word => dict_get word_to_idx word unk)
                (firstn (Z.to_nat max_len) (preprocess_text py text))
            ++ repeat 0%Z (Z.to_nat max_len - List.length (preprocess_text py text))).
Proof.
  intros Hunk Hmax. unfold text_to_indices, list_times, slice_to.
  apply Z.leb_le in Hmax. rewrite Hmax. apply Z.leb_le in Hmax.
  destruct text as [[s|d]|]; cbn [preprocess_text firstn map List.length app];
    try (destruct (Z.to_nat max_len); simpl; reflexivity).
  rewrite (mapM_total _ (fun word => dict_get word_to_idx word unk)).
  - cbn [bind]. rewrite length_map, length_firstn. do 3 f_equal. lia.
  - intros word _. unfold dict_getitem. rewrite Hunk. reflexivity.
Qed.

Lemma text_to_indices_entries_witness :
  text_to_indices Sample.python (Some (VString "How FAR away")) SampleTorch.vocabulary 5 =
    Return [2; 3; 1; 0; 0]%Z.
Proof.
  apply (text_to_indices_entries Sample.python (Some (VString "How FAR away"))
           SampleTorch.vocabulary
           5 1); [reflexivity | lia].
Defined.

(** X16.  Without an entry for ["<UNK>"], [text_to_indices] raises [KeyError]
    as soon as the text has a token and [max_len] is positive, even when
    every token is in the dictionary (the default is looked up before [get]
    is called); a text with no token, or a value that is no string, still
    yields the zeros. *)
Theorem text_to_indices_needs_unk (py : Python) (text : cell)
  (word_to_idx : string -> option Z)
  (max_len : Z) :
  word_to_idx "<UNK>" = None ->
  (preprocess_text py text <> [] -> (0 < max_len)%Z ->
   text_to_indices py text word_to_idx max_len = Raise KeyError) /\
  (preprocess_text py text = [] ->
   text_to_indices py text word_to_idx max_len = Return (list_times 0%Z max_len)).
Proof.
  intros Hunk. unfold text_to_indices, slice_to. split.
  - intros Hne Hmax. destruct text as [[s|d]|]; cbn [preprocess_text] in Hne;
      try congruence.
    assert (E : (0 <=? max_len)%Z = true) by (apply Z.leb_le; lia). rewrite E.
    destruct (str_split py (str_lower py s)) as [|word words]; [congruence|].
    destruct (Z.to_nat max_len) as [|n] eqn:En; [lia|].
    cbn [firstn mapM]. unfold dict_getitem at 1. rewrite Hunk. reflexivity.
  - intros Hnil. destruct text as [[s|d]|]; cbn [preprocess_text] in Hnil;
      try reflexivity.
    rewrite Hnil. destruct (0 <=? max_len)%Z; rewrite firstn_nil; cbn [mapM bind];
      cbn [List.length app]; rewrite Z.sub_0_r; reflexivity.
Qed.

Lemma text_to_indices_needs_unk_witness :
  text_to_indices Sample.python (Some (VString "how far")) SampleTorch.vocabulary_without_unk 4 =
    Raise KeyError.
Proof.
  apply (proj1 (text_to_indices_needs_unk Sample.python (Some (VString "how far"))
                  SampleTorch.vocabulary_without_unk 4 eq_refl));
    [discriminate | lia].
Defined.

Lemma list_getitem_in_range {A} (l : list A) (i : Z) (x : A) :
  (0 <= i)%Z -> nth_error l (Z.to_nat i) = Some x -> list_getitem l i = Returns x.
Proof.
  intros Hi Hx. unfold list_getitem.
  assert (Hlt : Z.to_nat i < List.length l) by (apply nth_error_Some; congruence).
  assert (E : (i <? 0)%Z = false) by (apply Z.ltb_ge; lia). rewrite E.
  assert (E' : ((0 <=? i) && (i <? Z.of_nat (List.length l)))%Z = true).
  { apply andb_true_iff. split; [apply Z.leb_le | apply Z.ltb_lt]; lia. }
  rewrite E', Hx. reflexivity.
Qed.

Lemma list_getitem_beyond {A} (l : list A) (i : Z) :
  (Z.of_nat (List.length l) <= i)%Z -> list_getitem l i = Raises IndexError.
Proof.
  intros Hi. unfold list_getitem.
  assert (E : (i <? 0)%Z = false) by (apply Z.ltb_ge; lia). rewrite E.
  assert (E' : (i <? Z.of_nat (List.length l))%Z = false) by (apply Z.ltb_ge; lia).
  rewrite E', andb_false_r. reflexivity.
Qed.

Lemma mapM_Forall {A B} (P : B -> Prop) (f : A -> py_result B) (l : list A) (l' : list B) :
  (forall x y, f x = Return y -> P y) -> mapM f l = Return l' -> Forall P l'.
Proof.
  intros Hf. revert l'. induction l as [|a l IH]; simpl; intros l' H.
  - injection H as <-. constructor.
  - bind_inv H. bind_inv H. injection H as <-. constructor; eauto.
Qed.

(** With a dictionary of indices that fit a long, so do the entries
    [text_to_indices] returns. *)
Lemma text_to_indices_long (py : Python) (text : cell) (word_to_idx : string -> option Z)
  (max_len : Z) (row : list Z) :
  (forall word i, word_to_idx word = Some i -> is_long i = true) ->
  text_to_indices py text word_to_idx max_len = Return row ->
  forallb is_long row = true.
Proof.
  intros Hdict H. apply forallb_forall. apply Forall_forall.
  assert (Hzeros : forall n, Forall (fun z => is_long z = true) (list_times 0%Z n)).
  { intros n. unfold list_times. apply Forall_forall. intros z Hz.
    apply repeat_spec in Hz. subst z. reflexivity. }
  unfold text_to_indices in H.
  destruct text as [[s|d]|]; try (injection H as <-; apply Hzeros).
  bind_inv H. injection H as <-. apply Forall_app. split; [|apply Hzeros].
  apply (mapM_Forall _ _ _ _) with (2 := Ha). intros word y Hy.
  unfold dict_getitem, dict_get in Hy.
  destruct (word_to_idx "<UNK>") as [unk|] eqn:Hunk; [|discriminate Hy].
  cbn [bind] in Hy. injection Hy as <-.
  destruct (word_to_idx word) as [i|] eqn:Hword; eauto.
Qed.

Lemma vocabulary_is_long (word : string) (i : Z) :
  SampleTorch.vocabulary word = Some i -> is_long i = true.
Proof.
  unfold SampleTorch.vocabulary.
  repeat match goal with |- context [if ?b then _ else _] => destruct b end;
    intros H; try discriminate H; injection H as <-; reflexivity.
Qed.

(** X17.  A dataset built from as many texts as labels, with a [max_len]
    that is not negative and a dictionary whose indices fit a long, yields
    for every index from 0 below its length the indices of that text,
    [max_len] of them, paired with the label at that index as a long; it
    raises only what the conversion of that label raises. *)
Theorem TextDataset_getitem_in_range (py : Python) (Label : Type)
  (as_long : Label -> outcome Z)
  (raw_texts : list cell) (raw_labels : list Label)
  (word_to_idx : string -> option Z) (max_len : Z)
  (self : TextDataset Label) (idx : Z) :
  TextDataset_init py raw_texts raw_labels word_to_idx max_len = Return self ->
  List.length raw_texts = List.length raw_labels ->
  (0 <= max_len)%Z ->
  (forall word i, word_to_idx word = Some i -> is_long i = true) ->
  (0 <= idx < Z.of_nat (TextDataset_len self))%Z ->
  exists text label row,
    nth_error raw_texts (Z.to_nat idx) = Some text /\
    nth_error raw_labels (Z.to_nat idx) = Some label /\
    text_to_indices py text word_to_idx max_len = Return row /\
    Z.of_nat (List.length row) = max_len /\
    TextDataset_getitem as_long self idx =
      (label_tensor <-- as_long label ;; Returns (row, label_tensor)).
Proof.
  unfold TextDataset_init, TextDataset_len. intros Hinit Hlen Hmax Hdict Hidx.
  bind_inv Hinit. rename a into rows_, Ha into Hrows. injection Hinit as <-.
  cbn [labels texts] in *.
  destruct (nth_error raw_labels (Z.to_nat idx)) as [label|] eqn:Hlabel;
    [|apply nth_error_None in Hlabel; lia].
  destruct (nth_error raw_texts (Z.to_nat idx)) as [text|] eqn:Htext;
    [|apply nth_error_None in Htext; lia].
  destruct (mapM_nth_error _ _ _ Hrows _ _ Htext) as (row & Hrow & Hindices).
  exists text, label, row. repeat split; try assumption.
  - pose proof (text_to_indices_length_aux py text word_to_idx max_len row Hindices) as H.
    apply Z.leb_le in Hmax. rewrite Hmax in H. exact H.
  - unfold TextDataset_getitem, long_tensor. cbn [texts labels].
    rewrite (list_getitem_in_range rows_ idx row) by (tauto || assumption).
    cbn [and_then].
    rewrite (text_to_indices_long py text word_to_idx max_len row Hdict Hindices).
    cbn [and_then]. rewrite (list_getitem_in_range raw_labels idx label)
      by (tauto || assumption).
    reflexivity.
Qed.

Lemma TextDataset_getitem_in_range_witness :
  exists self,
    TextDataset_init Sample.python [Some (VString "How far"); Some (VString "Why not")]
      [7%Z; 8%Z] SampleTorch.vocabulary 3 = Return self /\
    TextDataset_getitem SampleTorch.label_as_long self 1 = Returns ([1; 1; 0]%Z, 8%Z).
Proof.
  eexists. split; [reflexivity|].
  destruct (TextDataset_getitem_in_range Sample.python Z SampleTorch.label_as_long
              [Some (VString "How far"); Some (VString "Why not")] [7%Z; 8%Z]
              SampleTorch.vocabulary 3 _ 1 eq_refl eq_refl)
    as (text & label & row & Htext & Hlabel & Hrow & _ & Hitem);
    [lia | exact vocabulary_is_long | simpl; lia |].
  injection Htext as <-. injection Hlabel as <-.
  rewrite Hitem. injection Hrow as <-. reflexivity.
Defined.

(** X18.  The length of a dataset is the number of its labels.  When it was
    built from fewer texts than labels, an index below the length but not
    below the number of texts raises [IndexError]. *)
Theorem TextDataset_len_counts_labels (py : Python) (Label : Type)
  (as_long : Label -> outcome Z)
  (raw_texts : list cell) (raw_labels : list Label)
  (word_to_idx : string -> option Z) (max_len : Z)
  (self : TextDataset Label) (idx : Z) :
  TextDataset_init py raw_texts raw_labels word_to_idx max_len = Return self ->
  (Z.of_nat (List.length raw_texts) <= idx)%Z ->
  TextDataset_len self = List.length raw_labels /\
  TextDataset_getitem as_long self idx = Raises IndexError.
Proof.
  unfold TextDataset_init, TextDataset_len. intros Hinit Hidx.
  bind_inv Hinit. rename a into rows_, Ha into Hrows. injection Hinit as <-.
  split; [reflexivity|]. unfold TextDataset_getitem. cbn [texts labels].
  apply mapM_length in Hrows.
  rewrite (list_getitem_beyond rows_ idx) by lia. reflexivity.
Qed.

Lemma TextDataset_len_counts_labels_witness :
  exists self,
    TextDataset_init Sample.python [Some (VString "How far")] [7%Z; 8%Z]
      SampleTorch.vocabulary 3 = Return self /\
    TextDataset_len self = 2 /\
    TextDataset_getitem SampleTorch.label_as_long self 1 = Raises IndexError.
Proof.
  eexists. split; [reflexivity|].
  apply (TextDataset_len_counts_labels Sample.python Z SampleTorch.label_as_long
           [Some (VString "How far")]
           [7%Z; 8%Z] SampleTorch.vocabulary 3 _ 1 eq_refl).
  simpl. lia.
Defined.

(** * train and evaluate *)

Lemma count_equal_app (a1 a2 b1 b2 : list Z) :
  List.length a1 = List.length b1 ->
  count_equal (a1 ++ a2) (b1 ++ b2) = count_equal a1 b1 + count_equal a2 b2.
Proof.
  revert b1. unfold count_equal.
  induction a1 as [|x a1 IH]; intros [|y b1] H; simpl in *; try discriminate;
    [reflexivity|].
  destruct (Z.eqb x y); simpl; rewrite IH by lia; reflexivity.
Qed.

Section LoopFacts.
Variable np : Numpy.
Variable torch : Torch np.


(** The counters of [evaluate] after the loop. *)
Lemma evaluate_tally (model : Net torch) (iterator : list Batch) :
  forall t,
    let preds := List.concat (map (fun b => argmax torch (forward_eval torch model (fst b)))
                             iterator) in
    let labs := List.concat (map snd iterator) in
    let t' := fold_left (evaluate_batch np torch model) iterator t in
    total np t' = total np t + List.length labs /\
    all_preds np t' = all_preds np t ++ preds /\
    all_labels np t' = all_labels np t ++ labs /\
    (Forall (fun b => List.length (argmax torch (forward_eval torch model (fst b))) =
                      List.length (snd b)) iterator ->
     correct np t' = correct np t + count_equal preds labs).
Proof.
  induction iterator as [|b it IH]; intros t; cbn zeta.
  - simpl. rewrite !app_nil_r. repeat split; try lia. intros _. unfold count_equal. simpl. lia.
  - simpl. destruct (IH (evaluate_batch np torch model t b)) as (H1 & H2 & H3 & H4).
    cbn zeta in H1, H2, H3, H4. rewrite H1, H2, H3. simpl.
    rewrite length_app, <- !app_assoc. repeat split; try lia.
    intros Hwf. inversion Hwf as [|? ? Hb Hit]; subst.
    rewrite (H4 Hit). simpl. rewrite count_equal_app by exact Hb. lia.
Qed.

End LoopFacts.


(** X20.  [evaluate] raises [ZeroDivisionError] when the batches hold no
    label at all, before any score is asked of the library. *)
Theorem evaluate_without_labels_raises (np : Numpy) (torch : Torch np)
  (model : Net torch) (iterator : list Batch) :
  List.concat (map snd iterator) = [] ->
  evaluate np torch model iterator = Raises ZeroDivisionError.
Proof.
  intros Hnil. unfold evaluate.
  destruct (evaluate_tally np torch model iterator (no_tally np)) as (Htotal & _).
  cbn zeta in Htotal. rewrite Hnil in Htotal. simpl in Htotal.
  unfold py_div at 1. rewrite Htotal. reflexivity.
Qed.

Lemma evaluate_without_labels_raises_witness :
  evaluate Sample.numpy SampleTorch.torch 0%Z [] = Raises ZeroDivisionError /\
  evaluate Sample.numpy SampleTorch.torch 0%Z [([], [])] = Raises ZeroDivisionError.
Proof.
  split.
  - apply (evaluate_without_labels_raises Sample.numpy SampleTorch.torch 0%Z []).
    reflexivity.
  - apply (evaluate_without_labels_raises Sample.numpy SampleTorch.torch 0%Z [([], [])]).
    reflexivity.
Defined.

Lemma train_divides_by_the_labels_seen_example :
  fst (train Sample.numpy SampleTorch.torch 0%Z []) = Raises ZeroDivisionError /\
  train Sample.numpy SampleTorch.torch 0%Z
    [([[2; 3]; [0; 1]], [1; 1]); ([[5; 0]], [1])]%Z =
    (Returns ((1 # 1) * / (2 # 1), (2 # 1) * / (3 # 1))%Q, 2%Z).
Proof. split; reflexivity. Qed.

Section Batching.
Variable np : Numpy.
Variable torch : Torch np.
Variable model : Net torch.

Lemma row_wise_concat (groups : list (list (list Z))) :
  row_wise np torch model ->
  argmax torch (forward_eval torch model (List.concat groups)) =
  List.concat (map (fun rows_ => argmax torch (forward_eval torch model rows_)) groups).
Proof.
  intros Hrow. induction groups as [|g groups IH]; simpl.
  - pose proof (Hrow [] []) as H. simpl in H.
    apply (f_equal (@List.length Z)) in H. rewrite length_app in H.
    destruct (argmax torch (forward_eval torch model [])); [reflexivity | simpl in H; lia].
  - rewrite Hrow, IH. reflexivity.
Qed.

End Batching.

(** X21.  For a network that classifies each row on its own, and batches
    that get one class per label, the accuracy, precision, recall and F1 of
    [evaluate] do not depend on how the data is cut into batches: they are
    those of the one batch that holds all rows (and [evaluate] raises on the
    one exactly when it raises on the other, with the same exception).  The
    mean loss is left out: it is a mean over batches. *)
Theorem evaluate_scores_ignore_batching (np : Numpy) (torch : Torch np)
  (model : Net torch) (iterator : list Batch) :
  row_wise np torch model ->
  Forall (fun b => List.length (argmax torch (forward_eval torch model (fst b))) =
                   List.length (snd b)) iterator ->
  (e <-- evaluate np torch model iterator ;;
   Returns (eval_accuracy e, eval_precision e, eval_recall e, eval_f1 e)) =
  (e <-- evaluate np torch model
           [(List.concat (map fst iterator), List.concat (map snd iterator))] ;;
   Returns (eval_accuracy e, eval_precision e, eval_recall e, eval_f1 e)).
Proof.
  intros Hrow Hwf. unfold evaluate.
  destruct (evaluate_tally np torch model iterator (no_tally np)) as (H1 & H2 & H3 & H4).
  cbn zeta in H1, H2, H3, H4. specialize (H4 Hwf).
  cbn [no_tally total all_preds all_labels correct app Nat.add] in H1, H2, H3, H4.
  rewrite H1, H2, H3, H4.
  cbn [fold_left evaluate_batch tally_batch no_tally total all_preds all_labels correct
       epoch_loss fst snd app Nat.add List.length].
  rewrite (row_wise_concat np torch model (map fst iterator) Hrow), map_map.
  unfold py_div at 1 3.
  destruct (List.length (List.concat (map snd iterator)) =? 0) eqn:Hlab; [reflexivity|].
  cbn [and_then].
  destruct (weighted_precision torch _ _) as [p|e]; [|reflexivity].
  destruct (weighted_recall torch _ _) as [r|e]; [|reflexivity].
  destruct (weighted_f1 torch _ _) as [f|e]; [|reflexivity].
  cbn [library and_then]. unfold py_div.
  assert (Hit : (List.length iterator =? 0) = false).
  { destruct iterator; [discriminate Hlab | reflexivity]. }
  rewrite Hit. reflexivity.
Qed.

Lemma evaluate_scores_ignore_batching_witness :
  (e <-- evaluate Sample.numpy SampleTorch.torch 1%Z
           [([[2; 3]; [0; 1]], [1; 1]); ([[5; 0]], [0])]%Z ;;
   Returns (eval_accuracy e, eval_precision e, eval_recall e, eval_f1 e)) =
  (e <-- evaluate Sample.numpy SampleTorch.torch 1%Z
           [([[2; 3]; [0; 1]; [5; 0]], [1; 1; 0])]%Z ;;
   Returns (eval_accuracy e, eval_precision e, eval_recall e, eval_f1 e)).
Proof.
  apply (evaluate_scores_ignore_batching Sample.numpy SampleTorch.torch 1%Z
           [([[2; 3]; [0; 1]], [1; 1]); ([[5; 0]], [0])]%Z).
  - intros rows1 rows2. apply map_app.
  - repeat constructor.
Defined.

(** The mean loss does depend on the batches. *)
Example evaluate_loss_depends_on_batching :
  evaluate Sample.numpy SampleTorch.torch 1%Z
    [([[2; 3]; [0; 1]], [1; 1]); ([[5; 0]], [0])]%Z <>
  evaluate Sample.numpy SampleTorch.torch 1%Z
    [([[2; 3]; [0; 1]; [5; 0]], [1; 1; 0])]%Z.
Proof. vm_compute. discriminate. Qed.

(** * evaluate_model *)

(** X22.  [evaluate_model] asks for its "accuracy" before it sets any metric
    name, so that value is the evaluator's default metric; with the default
    "f1", the accuracy and the F1 it returns are one and the same number. *)
Theorem evaluate_model_accuracy_is_default_metric (np : Numpy) (ml : SparkML np)
  (predictions : DataFrame) (model_name : string)
  (accuracy precision recall f1 : scalar np) :
  default_metricName ml = "f1" ->
  evaluate_model ml predictions model_name = Return (accuracy, precision, recall, f1) ->
  accuracy = f1 /\
  multiclass_evaluate ml "f1" predictions = Return accuracy /\
  multiclass_evaluate ml "weightedPrecision" predictions = Return precision /\
  multiclass_evaluate ml "weightedRecall" predictions = Return recall.
Proof.
  intros Hdefault H. unfold evaluate_model in H. cbn [metricName setMetricName] in H.
  rewrite Hdefault in H.
  destruct (binary_evaluate ml predictions) as [auc|]; [|discriminate].
  cbn [bind] in H.
  destruct (multiclass_evaluate ml "f1" predictions) as [a|] eqn:Ha; [|discriminate].
  cbn [bind] in H.
  destruct (multiclass_evaluate ml "weightedPrecision" predictions) as [p|] eqn:Hp;
    [|discriminate].
  cbn [bind] in H.
  destruct (multiclass_evaluate ml "weightedRecall" predictions) as [r|] eqn:Hr;
    [|discriminate].
  cbn [bind] in H. injection H as <- <- <- <-. repeat split.
Qed.

Lemma evaluate_model_accuracy_is_default_metric_witness :
  evaluate_model SampleTorch.ml sample_frame "FastText" =
    Return (2 # 1, 17 # 1, 14 # 1, 2 # 1)%Q /\
  multiclass_evaluate SampleTorch.ml "f1" sample_frame = Return (2 # 1)%Q.
Proof.
  split; [reflexivity|].
  exact (proj1 (proj2 (evaluate_model_accuracy_is_default_metric Sample.numpy
                         SampleTorch.ml sample_frame "FastText"
                         (2 # 1)%Q (17 # 1)%Q (14 # 1)%Q (2 # 1)%Q eq_refl eq_refl))).
Defined.

